(** * scrnaseq_pipeline: the daemon test script and the sample registry

    A shallow embedding of

    - [Nextflow_setup/simple_daemon_test.py]: the class [SimpleDaemon]
      ([log], [write_pid], [remove_pid], [is_running], [run]), the
      control commands [stop_daemon] and [status_daemon], and the
      command line with its four actions;
    - [Sample_Registration_Streamlit/script.py]: [connect_db],
      [register_sample] and [bulk_upload], the query that
      [view_samples] builds from its filters, the dictionary of
      [create_template], and the submit of the single-sample form.

    Python code that reads and writes files, signals processes and raises
    exceptions is rendered in a state-and-exception monad over an explicit
    [World]; what the operating system answers (clock readings, the result
    of [os.kill]) is an explicit environment [Env]. *)

From Stdlib Require Import ZArith List Lia Ascii String.
From stdpp Require Import base option list strings pretty gmap sorting.

Local Open Scope Z_scope.
Local Open Scope string_scope.
Local Open Scope list_scope.

(** ** Python values shared by both scripts *)

Module Py.

(** The exceptions the two scripts can meet.  [KeyboardInterrupt] and
    [SystemExit] derive from [BaseException] only; the others derive
    from [Exception].  [OSError] carries its errno: [os.kill] raises
    [ProcessLookupError] (ESRCH) and [PermissionError] (EPERM), both
    subclasses of [OSError]. *)
Inductive exn : Type :=
| ValueError (msg : string)
| OverflowError (msg : string)
| KeyError (key : string)
| UnboundLocalError (name : string)
| OSError (errno : Z) (strerror : string)
| DBError (msg : string)
| KeyboardInterrupt
| SystemExit (code : Z).

Definition ESRCH : Z := 3.
Definition EPERM : Z := 1.

Definition ProcessLookupError : exn := OSError ESRCH "No such process".
Definition PermissionError : exn := OSError EPERM "Operation not permitted".

(** [isinstance(e, OSError)] *)
Definition is_OSError (e : exn) : bool :=
  match e with OSError _ _ => true | _ => false end.

(** [isinstance(e, KeyboardInterrupt)] *)
Definition is_KeyboardInterrupt (e : exn) : bool :=
  match e with KeyboardInterrupt => true | _ => false end.

(** [isinstance(e, Exception)] *)
Definition is_Exception (e : exn) : bool :=
  match e with KeyboardInterrupt | SystemExit _ => false | _ => true end.

(** [str(e)] *)
Definition str_exn (e : exn) : string :=
  match e with
  | ValueError m | OverflowError m | DBError m => m
  | KeyError k => "'" +:+ k +:+ "'"
  | UnboundLocalError n =>
      "cannot access local variable '" +:+ n
        +:+ "' where it is not associated with a value"
  | OSError n m => "[Errno " +:+ pretty n +:+ "] " +:+ m
  | KeyboardInterrupt => ""
  | SystemExit c => pretty c
  end.

(** A Python expression that may raise. *)
#[global] Instance exc_ret : MRet (sum exn) := fun A a => inr a.

#[global] Instance exc_bind : MBind (sum exn) := fun A B k x =>
  match x with
  | inl e => inl e
  | inr a => k a
  end.

(** *** [str.strip()]

    The ASCII characters Python counts as whitespace: tab, line feed,
    vertical tab, form feed, carriage return, the four separators
    0x1c-0x1f, and space.  (Strings are byte strings here; the Unicode
    spaces beyond ASCII are not covered.) *)
Definition isspace (c : ascii) : bool :=
  let n := nat_of_ascii c in
  ((9 <=? n) && (n <=? 13) || (28 <=? n) && (n <=? 32))%nat.

Fixpoint lstrip (s : string) : string :=
  match s with
  | String c r => if isspace c then lstrip r else s
  | EmptyString => EmptyString
  end.

Fixpoint rstrip (s : string) : string :=
  match s with
  | String c r =>
      match rstrip r with
      | EmptyString => if isspace c then EmptyString else String c EmptyString
      | r' => String c r'
      end
  | EmptyString => EmptyString
  end.

Definition strip (s : string) : string := rstrip (lstrip s).

(** *** [int(s)] for a string, base ten

    Optional surrounding whitespace, an optional sign, then decimal
    digits in which single underscores may separate digits.  Anything
    else is [ValueError]. *)
Definition isdigit (c : ascii) : bool :=
  let n := nat_of_ascii c in ((48 <=? n) && (n <=? 57))%nat.

Definition digit_val (c : ascii) : Z := Z.of_nat (nat_of_ascii c) - 48.

(** [after_digit] says whether the previous character was a digit: an
    underscore is accepted only there, and the literal must end on a
    digit. *)
Fixpoint digits_val (acc : Z) (after_digit : bool) (s : string) : option Z :=
  match s with
  | EmptyString => if after_digit then Some acc else None
  | String c r =>
      if isdigit c then digits_val (10 * acc + digit_val c) true r
      else if Ascii.eqb c "_"%char
           then (if after_digit then digits_val acc false r else None)
           else None
  end.

Definition int_literal (s : string) : option Z :=
  match s with
  | String "+"%char r => digits_val 0 false r
  | String "-"%char r => Z.opp <$> digits_val 0 false r
  | _ => digits_val 0 false s
  end.

Definition repr_str (s : string) : string := "'" +:+ s +:+ "'".

Definition int (s : string) : exn + Z :=
  match int_literal (strip s) with
  | Some z => inr z
  | None =>
      inl (ValueError
             ("invalid literal for int() with base 10: " +:+ repr_str s))
  end.

(** [s.split('\n')]: the pieces between line feeds. *)
Fixpoint split_lines (s : string) : list string :=
  match s with
  | EmptyString => [EmptyString]
  | String c r =>
      if Ascii.eqb c "010"%char then EmptyString :: split_lines r
      else match split_lines r with
           | l :: ls => String c l :: ls
           | [] => [String c EmptyString]
           end
  end.

(** Every character of [s] is a decimal digit. *)
Fixpoint alldigits (s : string) : bool :=
  match s with
  | EmptyString => true
  | String c r => isdigit c && alldigits r
  end.

(** [s.startswith(p)], by recursion on [p]. *)
Fixpoint startswith (p s : string) : bool :=
  match p with
  | EmptyString => true
  | String a p' =>
      match s with
      | String b s' => Ascii.eqb a b && startswith p' s'
      | EmptyString => false
      end
  end.

(** ["=" * n] and the like. *)
Fixpoint str_repeat (n : nat) (s : string) : string :=
  match n with
  | O => EmptyString
  | S n' => s +:+ str_repeat n' s
  end.

End Py.

(** ** The daemon test script *)

Module Daemon.

(** *** The world the script acts on *)

(** One [log()] call writes ["[" timestamp "] " message "\n"]; the file
    keeps the clock reading and the message of each call, in order. *)
Record log_entry : Type := LogEntry { stamp : Z; message : string }.

(** What the script does to the outside, in order: lines printed,
    signals sent with what [kill(2)] answered (0 on delivery, else the
    errno), and sleeps. *)
Inductive action : Type :=
| Print (line : string)
| Kill (pid sig : Z) (errno : Z)
| Sleep (secs : Z).

(** The files and the record of actions.  [pid_file] is the content of
    [daemon_test.pid] ([None]: no such file); [log_files] maps a log
    path to its entries (a missing key: no such file).  The log path is
    taken to differ from [daemon_test.pid]. [tick] counts the calls made
    to the operating system so far and indexes the environment. *)
Record World : Type := MkWorld {
  pid_file : option string;
  log_files : gmap string (list log_entry);
  tick : nat;
  trace : list action
}.

(** How a process stands towards the caller of [kill(2)]: no such
    process (ESRCH), a process the caller may signal, or a live process
    of another user (EPERM). *)
Inductive pstatus : Type := Absent | Alive | AliveForeign.

(** What the operating system answers, call by call: the pid of the
    running script, its working directory, the wall clock (seconds) as
    [datetime.now()] reads it at a given tick with its rendering by
    [strftime('%Y-%m-%d %H:%M:%S')], and the status of every process
    (for a non-positive number: of the process group [kill(2)]
    addresses) at a given tick.  Nothing is assumed of it: processes
    may appear and vanish between any two calls. *)
Record Env : Type := MkEnv {
  getpid : Z;
  cwd : string;
  now : nat -> Z;
  strftime : Z -> string;
  proc_at : nat -> Z -> pstatus
}.

(** The signals of interest and their numbers: [stop] sends 15 and
    9, the terminal sends 2. *)
Inductive signal : Type := SIGINT | SIGTERM | SIGKILL.

Definition signum (s : signal) : Z :=
  match s with SIGINT => 2 | SIGTERM => 15 | SIGKILL => 9 end.

(** What ends a [time.sleep] of the daemon: the time is over, or a
    signal arrives. *)
Inductive wakeup : Type := Elapsed | Signalled (s : signal).

(** *** Computations

    A computation returns, raises, is terminated by a signal (no
    handler of the script runs then), or is still asleep in the
    heartbeat loop when the events of the run are used up. *)
Inductive result (A : Type) : Type :=
| Ok (a : A)
| Raise (e : Py.exn)
| Die (s : signal)
| Asleep (counter : Z).
Arguments Ok {A} a.
Arguments Raise {A} e.
Arguments Die {A} s.
Arguments Asleep {A} counter.

Definition M (A : Type) : Type := World -> result A * World.

#[global] Instance M_ret : MRet M := fun A a w => (Ok a, w).

#[global] Instance M_bind : MBind M := fun A B k m w =>
  match m w with
  | (Ok a, w') => k a w'
  | (Raise e, w') => (Raise e, w')
  | (Die s, w') => (Die s, w')
  | (Asleep c, w') => (Asleep c, w')
  end.

Definition raise {A} (e : Py.exn) : M A := fun w => (Raise e, w).

(** [try: body except ...: handler]: [handler e] is [None] when no
    [except] clause matches [e]. *)
Definition try_except {A} (body : M A) (handler : Py.exn -> option (M A)) : M A :=
  fun w =>
    match body w with
    | (Raise e, w') =>
        match handler e with
        | Some h => h w'
        | None => (Raise e, w')
        end
    | r => r
    end.

(** [except OSError as e: h e] *)
Definition except_OSError {A} (h : Py.exn -> M A) (e : Py.exn) : option (M A) :=
  if Py.is_OSError e then Some (h e) else None.

Definition of_sum {A} (x : Py.exn + A) : M A :=
  match x with inl e => raise e | inr a => mret a end.

(** [Path('daemon_test.pid')], the one PID path of the class and of
    both control commands, and the log path [status] reads. *)
Definition pid_path : string := "daemon_test.pid".
Definition status_log_path : string := "daemon_test.log".

(** [pid_t] is a C [int]: [os.kill] refuses other numbers with
    [OverflowError] before any system call is made. *)
Definition fits_pid_t (pid : Z) : bool :=
  ((- 2 ^ 31 <=? pid) && (pid <? 2 ^ 31))%Z.

(** The object [SimpleDaemon(log_file, check_interval)]. *)
Record SimpleDaemon : Type := MkDaemon {
  log_file : string;
  check_interval : Z
}.

Section Script.

Variable E : Env.

(** **** Primitives *)

Definition print (line : string) : M unit := fun w =>
  (Ok (), MkWorld (pid_file w) (log_files w) (tick w) (trace w ++ [Print line])).

(** [pid_path.exists()] *)
Definition pid_exists : M bool := fun w => (Ok (bool_decide (is_Some (pid_file w))), w).

(** [open(pid_path, 'r').read()] *)
Definition read_pid : M string := fun w =>
  match pid_file w with
  | Some content => (Ok content, w)
  | None => (Raise (Py.OSError 2 "No such file or directory: 'daemon_test.pid'"), w)
  end.

(** [pid_path.unlink()] *)
Definition unlink_pid : M unit := fun w =>
  match pid_file w with
  | Some _ => (Ok (), MkWorld None (log_files w) (tick w) (trace w))
  | None => (Raise (Py.OSError 2 "No such file or directory: 'daemon_test.pid'"), w)
  end.

(** [open(pid_path, 'w').write(content)] *)
Definition write_pid_file (content : string) : M unit := fun w =>
  (Ok (), MkWorld (Some content) (log_files w) (tick w) (trace w)).

(** [datetime.now()] *)
Definition datetime_now : M Z := fun w =>
  (Ok (now E (tick w)), MkWorld (pid_file w) (log_files w) (S (tick w)) (trace w)).

(** [open(path, 'a').write(...)]: the entry goes to the end of the
    file, which is created when missing. *)
Definition append_log (path : string) (e : log_entry) : M unit := fun w =>
  (Ok (), MkWorld (pid_file w)
            (<[path := default [] (log_files w !! path) ++ [e]]> (log_files w))
            (tick w) (trace w)).

(** [os.kill(pid, sig)] *)
Definition os_kill (pid sig : Z) : M unit := fun w =>
  if negb (fits_pid_t pid)
  then (Raise (Py.OverflowError
                 (if (pid <? 0)%Z then "signed integer is less than minimum"
                  else "signed integer is greater than maximum")), w)
  else
    let w' errno := MkWorld (pid_file w) (log_files w) (S (tick w))
                      (trace w ++ [Kill pid sig errno]) in
    match proc_at E (tick w) pid with
    | Alive => (Ok (), w' 0)
    | Absent => (Raise Py.ProcessLookupError, w' Py.ESRCH)
    | AliveForeign => (Raise Py.PermissionError, w' Py.EPERM)
    end.

(** [time.sleep(secs)], ended by [ev].  A negative length is refused
    with [ValueError].  Signals are taken to arrive while the process
    sleeps, where it spends its time: SIGINT is raised in the sleeper
    as [KeyboardInterrupt]; the script installs no handler for
    SIGTERM, and none can be installed for SIGKILL, so either
    terminates the process on the spot. *)
Definition time_sleep (secs : Z) (ev : wakeup) : M unit := fun w =>
  if (secs <? 0)%Z then (Raise (Py.ValueError "sleep length must be non-negative"), w)
  else
    let w' := MkWorld (pid_file w) (log_files w) (S (tick w))
                (trace w ++ [Sleep secs]) in
    match ev with
    | Elapsed => (Ok (), w')
    | Signalled SIGINT => (Raise Py.KeyboardInterrupt, w')
    | Signalled s => (Die s, w')
    end.

(** [sys.exit(code)] *)
Definition sys_exit {A} (code : Z) : M A := raise (Py.SystemExit code).

(** [Path(p).absolute()] *)
Definition absolute (p : string) : string :=
  match p with
  | String "/"%char _ => p
  | _ => cwd E +:+ "/" +:+ p
  end.

(** **** class SimpleDaemon *)

(** The text of one entry as it stands in the file, without the
    final line feed. *)
Definition render (e : log_entry) : string :=
  "[" +:+ strftime E (stamp e) +:+ "] " +:+ message e.

Definition log (d : SimpleDaemon) (msg : string) : M unit :=
  t ← datetime_now;
  append_log (log_file d) (LogEntry t msg);;
  print (render (LogEntry t msg)).

Definition write_pid (d : SimpleDaemon) : M unit :=
  write_pid_file (pretty (getpid E));;
  log d ("Daemon started with PID: " +:+ pretty (getpid E)).

Definition remove_pid : M unit :=
  ex ← pid_exists;
  if ex : bool then unlink_pid else mret ().

Definition is_running : M bool :=
  ex ← pid_exists;
  if negb ex then mret false
  else
    content ← read_pid;
    pid ← of_sum (Py.int (Py.strip content));
    try_except
      (os_kill pid 0;; mret true)
      (except_OSError (fun _ => remove_pid;; mret false)).

Definition heartbeat (counter : Z) : string :=
  "Check #" +:+ pretty counter +:+ ": Daemon is alive and working!".

(** [while True: counter += 1; self.log(...); time.sleep(...)], one
    event per sleep.  When the events are used up the loop is left
    where it stands, [counter] iterations done. *)
Fixpoint heartbeat_loop (d : SimpleDaemon) (evs : list wakeup) (counter : Z) : M unit :=
  match evs with
  | [] => fun w => (Asleep counter, w)
  | ev :: evs' =>
      let counter := counter + 1 in
      log d (heartbeat counter);;
      time_sleep (check_interval d) ev;;
      heartbeat_loop d evs' counter
  end.

Definition LF : string := String "010"%char EmptyString.

(** The two [except] clauses around the loop: [KeyboardInterrupt]
    first, then [Exception]. *)
Definition shutdown (d : SimpleDaemon) (e : Py.exn) : option (M unit) :=
  if Py.is_KeyboardInterrupt e then Some (
    log d (LF +:+ "Received interrupt signal, shutting down...");;
    remove_pid;;
    log d "Daemon stopped gracefully")
  else if Py.is_Exception e then Some (
    log d ("ERROR: " +:+ Py.str_exn e);;
    remove_pid;;
    raise e)
  else None.

Definition run (d : SimpleDaemon) (evs : list wakeup) : M unit :=
  running ← is_running;
  if running : bool then
    print ("ERROR: Daemon is already running (PID file: " +:+ pid_path +:+ ")");;
    sys_exit 1
  else
    write_pid d;;
    log d (Py.str_repeat 60 "=");;
    log d "Simple Daemon Test Started";;
    log d ("Check interval: " +:+ pretty (check_interval d) +:+ " seconds");;
    log d ("Log file: " +:+ absolute (log_file d));;
    log d ("PID file: " +:+ absolute pid_path);;
    log d (Py.str_repeat 60 "=");;
    try_except (heartbeat_loop d evs 0) (shutdown d).

(** **** The control commands *)

Definition unlink_if_exists : M unit :=
  ex ← pid_exists;
  if ex : bool then unlink_pid else mret ().

Definition stop_daemon : M unit :=
  ex ← pid_exists;
  if negb ex then print "No daemon running (PID file not found)"
  else
    content ← read_pid;
    pid ← of_sum (Py.int (Py.strip content));
    try_except
      (print ("Stopping daemon with PID " +:+ pretty pid +:+ "...");;
       os_kill pid 15;;
       time_sleep 2 Elapsed;;
       try_except
         (os_kill pid 0;;
          print "Warning: Process still running, forcing kill...";;
          os_kill pid 9)
         (except_OSError (fun _ => print "Daemon stopped successfully"));;
       unlink_if_exists)
      (except_OSError (fun e =>
         print ("Error stopping daemon: " +:+ Py.str_exn e);;
         unlink_if_exists)).

(** [lines[-5:]] *)
Definition last5 {A} (lines : list A) : list A :=
  drop (length lines - 5) lines.

(** [f.readlines()] of a log file, line feeds dropped. *)
Definition readlines (entries : list log_entry) : list string :=
  flat_map (fun e => Py.split_lines (render e)) entries.

Fixpoint print_all (lines : list string) : M unit :=
  match lines with
  | [] => mret ()
  | l :: ls => print l;; print_all ls
  end.

(** [log_file.exists()] and, when it does, the entries read from it. *)
Definition open_log (path : string) : M (option (list log_entry)) := fun w =>
  (Ok (log_files w !! path), w).

Definition status_daemon : M unit :=
  ex ← pid_exists;
  if negb ex then print "Daemon is NOT running (no PID file)"
  else
    content ← read_pid;
    pid ← of_sum (Py.int (Py.strip content));
    try_except
      (os_kill pid 0;;
       print ("Daemon is RUNNING with PID " +:+ pretty pid);;
       logf ← open_log status_log_path;
       match logf : option (list log_entry) with
       | Some entries =>
           print (LF +:+ "Last 5 log entries:");;
           print (Py.str_repeat 60 "-");;
           print_all (Py.rstrip <$> last5 (readlines entries))
       | None => mret ()
       end)
      (except_OSError (fun _ =>
         print ("Daemon is NOT running (stale PID " +:+ pretty pid +:+ ")");;
         unlink_pid)).

(** **** The command line *)

Inductive command : Type := Start | Stop | Restart | Status.

Definition main (action : command) (interval : Z) (log_path : string)
           (evs : list wakeup) : M unit :=
  match action with
  | Start => run (MkDaemon log_path interval) evs
  | Stop => stop_daemon
  | Restart =>
      print "Stopping daemon...";;
      stop_daemon;;
      time_sleep 2 Elapsed;;
      print "Starting daemon...";;
      run (MkDaemon log_path interval) evs
  | Status => status_daemon
  end.

End Script.

(** How the process of a command ends: its exit status when it has
    one.  A normal return is status 0, [sys.exit(c)] is status [c], any
    other uncaught exception prints a traceback and gives status 1; a
    process terminated by a signal, or still asleep in its loop, has no
    exit status. *)
Definition exit_status {A} (r : result A) : option Z :=
  match r with
  | Ok _ => Some 0
  | Raise (Py.SystemExit c) => Some c
  | Raise Py.KeyboardInterrupt => None
  | Raise _ => Some 1
  | Die _ => None
  | Asleep _ => None
  end.

(** The entries of the daemon's log ([[]] when the file is missing). *)
Definition log_of (path : string) (w : World) : list log_entry :=
  default [] (log_files w !! path).

(** The heartbeat lines among log entries, recognised by the start of
    their text, ["Check #"], which no other message of the script has. *)
Definition is_heartbeat (e : log_entry) : bool :=
  Py.startswith "Check #" (message e).

Definition heartbeats (l : list log_entry) : list log_entry :=
  filter (fun e => is_heartbeat e = true) l.

(** The closing line of an interrupted run. *)
Definition is_graceful_stop (e : log_entry) : bool :=
  bool_decide (message e = "Daemon stopped gracefully").

(** The two reports of [status] and the one of [stop] that say no
    daemon runs. *)
Definition not_running_report (line : string) : bool :=
  Py.startswith "Daemon is NOT running" line
  || Py.startswith "No daemon running" line.

(** *** Vocabulary of the statements *)

(** The PID record exists and holds the process id [pid]: its content,
    stripped, is a decimal integer within [pid_t]. *)
Definition holds_pid (w : World) (pid : Z) : Prop :=
  ∃ content, pid_file w = Some content
             ∧ Py.int (Py.strip content) = inr pid
             ∧ fits_pid_t pid = true.

(** The errno [kill(2)] answers for a process in a given status. *)
Definition errno_of (s : pstatus) : Z :=
  match s with
  | Alive => 0
  | Absent => Py.ESRCH
  | AliveForeign => Py.EPERM
  end.

(** The steps of [stop] on an existing record in the words of the
    specification, against the answers of the system from tick [t] on:
    the graceful signal first; when it is delivered, the grace period
    of 2 and a probe, and the forceful signal only when the probe
    finds the process.  When the graceful signal is not delivered, the
    error is reported and nothing more is done. *)
Definition stop_protocol (E : Env) (t : nat) (pid : Z) : list action :=
  Print ("Stopping daemon with PID " +:+ pretty pid +:+ "...")
  :: Kill pid 15 (errno_of (proc_at E t pid))
  :: match proc_at E t pid with
     | Alive =>
         Sleep 2
         :: Kill pid 0 (errno_of (proc_at E (t + 2) pid))
         :: match proc_at E (t + 2) pid with
            | Alive =>
                Print "Warning: Process still running, forcing kill..."
                :: Kill pid 9 (errno_of (proc_at E (t + 3) pid))
                :: match proc_at E (t + 3) pid with
                   | Alive => []
                   | _ => [Print "Daemon stopped successfully"]
                   end
            | _ => [Print "Daemon stopped successfully"]
            end
     | s => [Print ("Error stopping daemon: "
                      +:+ Py.str_exn (Py.OSError (errno_of s)
                                        (match s with
                                         | AliveForeign => "Operation not permitted"
                                         | _ => "No such process"
                                         end)))]
     end.

(** What [status] prints after a probe that succeeds. *)
Definition running_report (E : Env) (w : World) (pid : Z) : list action :=
  Kill pid 0 0
  :: Print ("Daemon is RUNNING with PID " +:+ pretty pid)
  :: match log_files w !! status_log_path with
     | Some entries =>
         Print (LF +:+ "Last 5 log entries:")
         :: Print (Py.str_repeat 60 "-")
         :: (Print <$> (Py.rstrip <$> last5 (readlines E entries)))
     | None => []
     end.

(** Every signal that failed is followed at once by a printed line. *)
Fixpoint failures_reported (tr : list action) : bool :=
  match tr with
  | Kill _ _ errno :: rest =>
      (if (errno =? 0)%Z then true
       else match rest with Print _ :: _ => true | _ => false end)
      && failures_reported rest
  | _ :: rest => failures_reported rest
  | [] => true
  end.

(** A log store extends another: each file of the first is in the
    second with its entries kept at the front, in order. *)
Definition extends (logs logs' : gmap string (list log_entry)) : Prop :=
  ∀ path entries, logs !! path = Some entries →
                  ∃ more, logs' !! path = Some (entries ++ more).

(** A computation keeps a relation between the log store before and
    the log store after it, however it ends. *)
Definition keeps (R : relation (gmap string (list log_entry))) {A} (m : M A) : Prop :=
  ∀ w, R (log_files w) (log_files (snd (m w))).

(** Successive readings of the wall clock never go back. *)
Definition monotone_clock (E : Env) : Prop :=
  ∀ i j : nat, (i ≤ j)%nat → (now E i ≤ now E j)%Z.

(** The heartbeat entries of [n] iterations that start at tick [t]
    with the counter at [c]: each iteration reads the clock once and
    sleeps once. *)
Definition beats (E : Env) (t : nat) (c : Z) (n : nat) : list log_entry :=
  (fun i => LogEntry (now E (t + 2 * i)) (heartbeat (c + 1 + Z.of_nat i))) <$> seq 0 n.

(** The entries [run] writes between its liveness check at tick [t]
    and the loop. *)
Definition banner (E : Env) (d : SimpleDaemon) (t : nat) : list log_entry :=
  [LogEntry (now E t) ("Daemon started with PID: " +:+ pretty (getpid E));
   LogEntry (now E (t + 1)) (Py.str_repeat 60 "=");
   LogEntry (now E (t + 2)) "Simple Daemon Test Started";
   LogEntry (now E (t + 3))
     ("Check interval: " +:+ pretty (check_interval d) +:+ " seconds");
   LogEntry (now E (t + 4)) ("Log file: " +:+ absolute E (log_file d));
   LogEntry (now E (t + 5)) ("PID file: " +:+ absolute E pid_path);
   LogEntry (now E (t + 6)) (Py.str_repeat 60 "=")].

(** The lines printed among the actions, in order. *)
Definition printed (tr : list action) : list string :=
  omap (fun a => match a with Print line => Some line | _ => None end) tr.

(** A computation keeps a relation between the world before and the
    world after it, however it ends. *)
Definition preserves (R : relation World) {A} (m : M A) : Prop :=
  ∀ w, R w (snd (m w)).

(** Between two worlds nothing was written to a log file and nothing
    was printed. *)
Definition quiet (w w' : World) : Prop :=
  log_files w' = log_files w ∧ printed (trace w') = printed (trace w).

(** Between two worlds standard output mirrors the log of daemon [d]:
    the entries added to its log file are the lines printed, one for
    one and in the same order. *)
Definition mirrors (E : Env) (d : SimpleDaemon) (w w' : World) : Prop :=
  ∃ new, log_of (log_file d) w' = log_of (log_file d) w ++ new
         ∧ printed (trace w') = printed (trace w) ++ (render E <$> new).

(** Between two log stores the file at [path] was not touched: it is
    missing in both or has the same entries. *)
Definition same_at (path : string) (logs logs' : gmap string (list log_entry)) : Prop :=
  logs' !! path = logs !! path.

End Daemon.

(** ** The sample registration form *)

Module Registry.

(** *** The table [scRNAseq_Samples] *)

(** A value bound to a query parameter or stored in a column: SQL NULL
    (Python [None]), a text, an integer, or anything else (a float, a
    date) known by its text. *)
Inductive value : Type :=
| Null
| Text (s : string)
| Int (z : Z)
| Other (repr : string).

#[global] Instance value_eq_dec : EqDecision value.
Proof. solve_decision. Defined.

(** A stored row maps a column to its value; the table is the list of
    its rows in order of insertion.  A connection inside
    [with engine.begin() as conn] holds the rows the transaction sees,
    and whether a statement has failed in it: after a failed statement
    PostgreSQL refuses every further statement of the transaction, and
    its commit rolls back. *)
Record conn : Type := MkConn {
  rows : list (gmap string value);
  aborted : bool
}.

(** What the page shows: [st.warning], [st.error], [st.success]. *)
Inductive notice : Type :=
| Warning (text : string)
| Error (text : string)
| Success (text : string).

(** Statements run against a connection and may raise. *)
Definition DB (A : Type) : Type := conn -> (Py.exn + A) * conn.

#[global] Instance DB_ret : MRet DB := fun A a c => (inr a, c).

#[global] Instance DB_bind : MBind DB := fun A B k m c =>
  match m c with
  | (inr a, c') => k a c'
  | (inl e, c') => (inl e, c')
  end.

(** A Python expression evaluated between two statements. *)
Definition lift {A} (x : Py.exn + A) : DB A := fun c => (x, c).

(** SQL [=]: NULL equals nothing. *)
Definition sql_eq (a b : value) : bool :=
  match a, b with
  | Null, _ | _, Null => false
  | _, _ => bool_decide (a = b)
  end.

(** [WHERE SampleName = :sample_name] on one row. *)
Definition has_name (name : value) (row : gmap string value) : bool :=
  match row !! "SampleName" with
  | Some v => sql_eq v name
  | None => false
  end.

(** What a statement raises in a transaction that has failed. *)
Definition in_failed_transaction : Py.exn :=
  Py.DBError "current transaction is aborted, commands ignored until end of transaction block".

(** The counters and the error list of [bulk_upload], with the loop
    variable [sample_name] as last bound ([None]: not bound yet). *)
Record tally : Type := MkTally {
  inserted : nat;
  skipped : nat;
  errors : list string;
  sample_name : option string
}.

(** Some stored row carries the name. *)
Definition name_exists (name : value) (table : list (gmap string value)) : bool :=
  existsb (has_name name) table.

(** Each of the rows, in turn, carries a name that no row before it
    carries, neither in [table] nor among the earlier ones. *)
Fixpoint all_new (table added : list (gmap string value)) : Prop :=
  match added with
  | [] => True
  | row :: more =>
      (∃ name, row !! "SampleName" = Some name
               ∧ name_exists name table = false)
      ∧ all_new (table ++ [row]) more
  end.

Section Forms.

(** The constraints of the table (its schema is not part of the
    scripts): whether the database takes a row, given the rows it
    holds. *)
Variable accepts : list (gmap string value) -> gmap string value -> bool.

(** [conn.execute(check_query, {"sample_name": name}).fetchone()] *)
Definition check_query (name : value) : DB (option (gmap string value)) := fun c =>
  if aborted c then (inl in_failed_transaction, c)
  else (inr (List.find (has_name name) (rows c)), c).

(** [conn.execute(insert_query, row)] *)
Definition insert_query (row : gmap string value) : DB unit := fun c =>
  if aborted c then (inl in_failed_transaction, c)
  else if accepts (rows c) row then (inr (), MkConn (rows c ++ [row]) false)
  else (inl (Py.DBError "the row violates a constraint of scRNAseq_Samples"),
        MkConn (rows c) true).

(** [with engine.begin() as conn: body]: the rows are committed when
    the body ends normally in a transaction that has not failed;
    otherwise the table stays as it was. *)
Definition transaction {A} (body : DB A) (table : list (gmap string value))
  : (Py.exn + A) * list (gmap string value) :=
  match body (MkConn table false) with
  | (inr a, c) => (inr a, if aborted c then table else rows c)
  | (inl e, _) => (inl e, table)
  end.

(** [sample_data[key]] and [sample_data.get(key, default)] *)
Definition getitem {V} (d : gmap string V) (key : string) : Py.exn + V :=
  match d !! key with
  | Some v => inr v
  | None => inl (Py.KeyError key)
  end.

Definition get (d : gmap string value) (key : string) (dflt : value) : value :=
  default dflt (d !! key).

(** **** register_sample *)

Definition register_row (name : value) (sample_data : gmap string value)
  : gmap string value :=
  list_to_map
    [("SampleName", name);
     ("AnonyName", get sample_data "AnonyName" Null);
     ("Subject", get sample_data "Subject" Null);
     ("PID", get sample_data "PID" Null);
     ("Alias", get sample_data "Alias" Null);
     ("Batch", get sample_data "Batch" Null);
     ("Tissue", get sample_data "Tissue" Null);
     ("TimePoint", get sample_data "TimePoint" Null);
     ("log10_VL", get sample_data "log10_VL" Null);
     ("Plate", get sample_data "Plate" Null);
     ("SampleDate", get sample_data "SampleDate" Null);
     ("Days2Lesion", get sample_data "Days2Lesion" Null);
     ("SeqType", get sample_data "SeqType" Null);
     ("FileName", get sample_data "FileName" Null);
     ("FilePath", get sample_data "FilePath" Null);
     ("Status", get sample_data "Status" (Text "raw"));
     ("PipelineVersion", get sample_data "PipelineVersion" Null);
     ("Checksum", get sample_data "Checksum" Null);
     ("Notes", get sample_data "Notes" Null)].

(** [str(x)] of a value, for the messages. *)
Definition str_value (v : value) : string :=
  match v with
  | Null => "None"
  | Text s => s
  | Int z => pretty z
  | Other r => r
  end.

(** The body of the [with] block: [inr false] is the early
    [return False] at an existing name, [inr true] the end of the
    block after the insert. *)
Definition register_body (sample_data : gmap string value) : DB bool :=
  name ← lift (getitem sample_data "SampleName");
  result ← check_query name;
  match result : option (gmap string value) with
  | Some _ => mret false
  | None =>
      name' ← lift (getitem sample_data "SampleName");
      insert_query (register_row name' sample_data);;
      mret true
  end.

(** [connect_db()]: [create_engine] gives an engine ([inr ()]) or
    raises; then the error is shown and [None] returned. *)
Definition connect_db (create_engine : Py.exn + unit) : bool * list notice :=
  match create_engine with
  | inr _ => (true, [])
  | inl e => (false, [Error ("Database connection failed: " +:+ Py.str_exn e)])
  end.

Definition register_sample (create_engine : Py.exn + unit)
           (sample_data : gmap string value) (table : list (gmap string value))
  : (Py.exn + bool) * list (gmap string value) * list notice :=
  let '(engine, shown) := connect_db create_engine in
  if negb engine then (inr false, table, shown)
  else
    match transaction (register_body sample_data) table with
    | (inr false, table') =>
        (inr false, table',
         shown ++ [Warning ("Sample '" +:+ str_value (get sample_data "SampleName" Null)
                              +:+ "' already exists!")])
    | (inr true, table') =>
        (inr true, table',
         shown ++ [Success ("Sample '" +:+ str_value (get sample_data "SampleName" Null)
                              +:+ "' registered successfully!")])
    | (inl e, table') =>
        if Py.is_Exception e
        then (inr false, table',
              shown ++ [Error ("Error registering sample: " +:+ Py.str_exn e)])
        else (inl e, table', shown)
    end.

(** **** bulk_upload *)

Section Frame.

(** A cell of the uploaded DataFrame and what pandas and Python do
    with it: [pd.notna], [str], [float], [int] and
    [pd.to_datetime(x).date()]; the last three may raise. *)
Variable cell : Type.
Variable notna : cell -> bool.
Variable py_str : cell -> string.
Variable py_float : cell -> Py.exn + value.
Variable py_int : cell -> Py.exn + value.
Variable to_date : cell -> Py.exn + value.

(** [conv(row.get(col)) if pd.notna(row.get(col)) else None]; a
    missing column reads as [None], which is not [notna]. *)
Definition convert (conv : cell -> Py.exn + value) (row : gmap string cell)
           (col : string) : Py.exn + value :=
  match row !! col with
  | Some x => if notna x then conv x else inr Null
  | None => inr Null
  end.

Definition as_text (x : cell) : Py.exn + value := inr (Text (py_str x)).

(** [str(row.get("Status", "raw"))] *)
Definition status_of (row : gmap string cell) : value :=
  match row !! "Status" with
  | Some x => Text (py_str x)
  | None => Text "raw"
  end.

(** The parameter dictionary of the insert, its entries evaluated
    in order; the first conversion that raises ends it. *)
Definition bulk_row (name : string) (row : gmap string cell)
  : Py.exn + gmap string value :=
  AnonyName ← convert as_text row "AnonyName";
  Subject ← convert as_text row "Subject";
  PID ← convert as_text row "PID";
  Alias ← convert as_text row "Alias";
  Batch ← convert as_text row "Batch";
  Tissue ← convert as_text row "Tissue";
  TimePoint ← convert as_text row "TimePoint";
  log10_VL ← convert py_float row "log10_VL";
  Plate ← convert as_text row "Plate";
  SampleDate ← convert to_date row "SampleDate";
  Days2Lesion ← convert py_int row "Days2Lesion";
  SeqType ← convert as_text row "SeqType";
  FileName ← convert as_text row "FileName";
  FilePath ← convert as_text row "FilePath";
  PipelineVersion ← convert as_text row "PipelineVersion";
  Checksum ← convert as_text row "Checksum";
  Notes ← convert as_text row "Notes";
  inr (list_to_map
    [("SampleName", Text name); ("AnonyName", AnonyName); ("Subject", Subject);
     ("PID", PID); ("Alias", Alias); ("Batch", Batch); ("Tissue", Tissue);
     ("TimePoint", TimePoint); ("log10_VL", log10_VL); ("Plate", Plate);
     ("SampleDate", SampleDate); ("Days2Lesion", Days2Lesion);
     ("SeqType", SeqType); ("FileName", FileName); ("FilePath", FilePath);
     ("Status", status_of row); ("PipelineVersion", PipelineVersion);
     ("Checksum", Checksum); ("Notes", Notes)]).

(** [str(row["SampleName"]).strip()] *)
Definition name_of (row : gmap string cell) : Py.exn + string :=
  x ← getitem row "SampleName"; inr (Py.strip (py_str x)).

(** One turn of [for idx, row in df.iterrows()].  The [try] body
    binds [sample_name], asks whether it exists, and skips or
    inserts; the handler appends to [errors], and fails itself
    when [sample_name] was never bound. *)
Definition bulk_step (t : tally) (row : gmap string cell) : DB tally := fun c =>
  match name_of row with
  | inl e =>
      match sample_name t with
      | Some old =>
          (inr (MkTally (inserted t) (skipped t)
                  (errors t ++ [old +:+ ": " +:+ Py.str_exn e]) (Some old)), c)
      | None => (inl (Py.UnboundLocalError "sample_name"), c)
      end
  | inr name =>
      let failed e c' :=
        (inr (MkTally (inserted t) (skipped t)
                (errors t ++ [name +:+ ": " +:+ Py.str_exn e]) (Some name)), c') in
      match check_query (Text name) c with
      | (inl e, c') => failed e c'
      | (inr (Some _), c') =>
          (inr (MkTally (inserted t) (S (skipped t)) (errors t) (Some name)), c')
      | (inr None, c') =>
          match bulk_row name row with
          | inl e => failed e c'
          | inr params =>
              match insert_query params c' with
              | (inl e, c'') => failed e c''
              | (inr _, c'') =>
                  (inr (MkTally (S (inserted t)) (skipped t) (errors t) (Some name)), c'')
              end
          end
      end
  end.

Fixpoint bulk_loop (t : tally) (df : list (gmap string cell)) : DB tally :=
  match df with
  | [] => mret t
  | row :: df' => t' ← bulk_step t row; bulk_loop t' df'
  end.

Definition bulk_upload (create_engine : Py.exn + unit)
           (df : list (gmap string cell)) (table : list (gmap string value))
  : (Py.exn + option tally) * list (gmap string value) * list notice :=
  let '(engine, shown) := connect_db create_engine in
  if negb engine then (inr None, table, shown)
  else
    match transaction (bulk_loop (MkTally 0 0 [] None) df) table with
    | (inr t, table') =>
        (inr (Some t), table',
         shown ++ [Success ("Bulk upload complete: " +:+ pretty (inserted t)
                              +:+ " inserted, " +:+ pretty (skipped t) +:+ " skipped")])
    | (inl e, table') => (inl e, table', shown)
    end.

End Frame.

End Forms.

(** *** The columns *)

(** The column list of the INSERT statement, the same text in
    [register_sample] and in [bulk_upload]; each column has the
    placeholder of its name. *)
Definition insert_columns : list string :=
  ["SampleName"; "AnonyName"; "Subject"; "PID"; "Alias"; "Batch"; "Tissue";
   "TimePoint"; "log10_VL"; "Plate"; "SampleDate"; "Days2Lesion"; "SeqType";
   "FileName"; "FilePath"; "Status"; "PipelineVersion"; "Checksum"; "Notes"].

(** [create_template()]: the dictionary the template frame is made
    of, a column with its three values per entry. *)
Definition template_data : list (string * list value) :=
  [("SampleName", [Text "JK_9149"; Text "JK_9150"; Text "JK_9151"]);
   ("AnonyName", [Text "Sample001"; Text "Sample002"; Text "Sample003"]);
   ("Subject", [Text "Subject1"; Text "Subject1"; Text "Subject2"]);
   ("PID", [Text "PID001"; Text "PID001"; Text "PID002"]);
   ("Alias", [Text "Alias1"; Text "Alias2"; Text "Alias3"]);
   ("Batch", [Text "Batch4"; Text "Batch4"; Text "Batch4"]);
   ("Tissue", [Text "Cervix"; Text "Cervix"; Text "Blood"]);
   ("TimePoint", [Text "8wk"; Text "8wk"; Text "12wk"]);
   ("log10_VL", [Int 0; Other "2.5"; Other "1.8"]);
   ("Plate", [Text "Y"; Text "Y"; Text "N"]);
   ("SampleDate", [Text "2020-03-11"; Text "2020-03-11"; Text "2020-03-15"]);
   ("Days2Lesion", [Int 56; Int 56; Int 84]);
   ("SeqType", [Text "GEX"; Text "TCR"; Text "BCR"]);
   ("FileName", [Text ""; Text ""; Text ""]);
   ("FilePath", [Text ""; Text ""; Text ""]);
   ("Status", [Text "raw"; Text "raw"; Text "raw"]);
   ("PipelineVersion", [Text ""; Text ""; Text ""]);
   ("Checksum", [Text ""; Text ""; Text ""]);
   ("Notes", [Text "Good quality"; Text "May need rerun"; Text "Priority sample"])].

(** *** view_samples: the query and its parameters *)

(** [if s:] for a string. *)
Definition nonempty (s : string) : bool := negb (String.eqb s "").

Definition NL : string := String "010"%char EmptyString.

(** The text handed to [pd.read_sql] and the dictionary of its
    parameters, from the five filter inputs. *)
Definition view_query
           (sample_name_filter subject_name_filter batch_filter tissue_filter
              seqtype_filter : string)
  : string * gmap string string :=
  let query := NL +:+ "        SELECT * FROM scRNAseq_Samples WHERE 1=1" +:+ NL +:+ "    " in
  let params : gmap string string := ∅ in
  let '(query, params) :=
    if nonempty sample_name_filter
    then (query +:+ " AND samplename ILIKE :samplename",
          <["samplename" := "%" +:+ sample_name_filter +:+ "%"]> params)
    else (query, params) in
  let '(query, params) :=
    if nonempty subject_name_filter
    then (query +:+ " AND subject ILIKE :subject",
          <["subject" := "%" +:+ subject_name_filter +:+ "%"]> params)
    else (query, params) in
  let '(query, params) :=
    if nonempty batch_filter
    then (query +:+ " AND batch ILIKE :batch",
          <["batch" := "%" +:+ batch_filter +:+ "%"]> params)
    else (query, params) in
  let '(query, params) :=
    if nonempty tissue_filter
    then (query +:+ " AND tissue ILIKE :tissue",
          <["tissue" := "%" +:+ tissue_filter +:+ "%"]> params)
    else (query, params) in
  let '(query, params) :=
    if nonempty seqtype_filter
    then (query +:+ " AND seqtype ILIKE :seqtype",
          <["seqtype" := "%" +:+ seqtype_filter +:+ "%"]> params)
    else (query, params) in
  (query +:+ " ORDER BY SampleDate DESC, SampleName LIMIT 100", params).

(** The filters that are filled in, each with its column, in the
    order of the page. *)
Definition filled_filters
           (sample_name_filter subject_name_filter batch_filter tissue_filter
              seqtype_filter : string)
  : list (string * string) :=
  List.filter (fun p => nonempty (snd p))
    [("samplename", sample_name_filter); ("subject", subject_name_filter);
     ("batch", batch_filter); ("tissue", tissue_filter); ("seqtype", seqtype_filter)].

(** One condition per filter, on the column, with the placeholder of
    the column's name. *)
Definition conditions (filters : list (string * string)) : string :=
  fold_right (fun p rest => " AND " +:+ fst p +:+ " ILIKE :" +:+ fst p +:+ rest)
    "" filters.

(** *** The form of the page "Register Single Sample" *)

Module Form.

Section Widgets.

(** The float a number input gives, with the test [x != 0.0] and the
    value it makes as a query parameter. *)
Variable float : Type.
Variable nonzero : float -> bool.
Variable float_value : float -> value.

(** What the widgets hold when the form is submitted: text inputs,
    the text area and the select boxes give a string, the date input a
    date or [None], the two number inputs a float and an integer. *)
Record form : Type := MkForm {
  sample_name : string;
  anony_name : string;
  subject : string;
  pid : string;
  alias : string;
  batch : string;
  tissue : string;
  timepoint : string;
  plate : string;
  log10_vl : float;
  sample_date : value;
  days2lesion : Z;
  seq_type : string;
  file_name : string;
  file_path : string;
  status : string;
  pipeline_version : string;
  checksum : string;
  notes : string
}.

(** [x.strip() if x else None] *)
Definition strip_or_none (x : string) : value :=
  if nonempty x then Text (Py.strip x) else Null.

(** The dictionary [sample_data] built from the widgets. *)
Definition sample_data (f : form) : gmap string value :=
  list_to_map
    [("SampleName", Text (Py.strip (sample_name f)));
     ("AnonyName", strip_or_none (anony_name f));
     ("Subject", strip_or_none (subject f));
     ("PID", strip_or_none (pid f));
     ("Alias", strip_or_none (alias f));
     ("Batch", strip_or_none (batch f));
     ("Tissue", strip_or_none (tissue f));
     ("TimePoint", strip_or_none (timepoint f));
     ("log10_VL", if nonzero (log10_vl f) then float_value (log10_vl f) else Null);
     ("Plate", strip_or_none (plate f));
     ("SampleDate", sample_date f);
     ("Days2Lesion", if (0 <? days2lesion f)%Z then Int (days2lesion f) else Null);
     ("SeqType", if nonempty (seq_type f) then Text (seq_type f) else Null);
     ("FileName", strip_or_none (file_name f));
     ("FilePath", strip_or_none (file_path f));
     ("Status", Text (status f));
     ("PipelineVersion", strip_or_none (pipeline_version f));
     ("Checksum", strip_or_none (checksum f));
     ("Notes", strip_or_none (notes f))].

(** [if submitted:] the name is asked for, then [register_sample] is
    called and its result dropped; here the result is kept ([None]:
    [register_sample] was not called). *)
Definition submitted
           (accepts : list (gmap string value) -> gmap string value -> bool)
           (create_engine : Py.exn + unit) (f : form) (table : list (gmap string value))
  : (Py.exn + option bool) * list (gmap string value) * list notice :=
  if negb (nonempty (sample_name f))
  then (inr None, table, [Error "❌ Sample Name is required!"])
  else
    match register_sample accepts create_engine (sample_data f) table with
    | (inr b, table', shown) => (inr (Some b), table', shown)
    | (inl e, table', shown) => (inl e, table', shown)
    end.

End Widgets.

End Form.

(** What [k] turns of the loop of [bulk_upload] do to the counters
    and to the connection: each row is counted once; a row is added
    exactly when [inserted] goes up; the transaction fails only along
    with a new entry in [errors]. *)
Definition counted (t : tally) (c : conn) (t' : tally) (c' : conn) (k : nat) : Prop :=
  (inserted t' + skipped t' + length (errors t')
   = inserted t + skipped t + length (errors t) + k)%nat
  ∧ (length (rows c') + inserted t = length (rows c) + inserted t')%nat
  ∧ (length (errors t) ≤ length (errors t'))%nat
  ∧ (aborted c' = true → aborted c = true ∨ (length (errors t) < length (errors t'))%nat).

(** Every stored row carries as its name a text that [strip()]
    leaves as it is. *)
Definition names_stripped (table : list (gmap string value)) : Prop :=
  Forall (fun row => ∃ s, row !! "SampleName" = Some (Text s) ∧ Py.strip s = s) table.

End Registry.

(** ** Concrete inputs *)

Module Samples.

Import Daemon.

(** A machine on which process 77 runs under the caller's user,
    process 88 under another user, and nothing else; the clock ticks
    once per call; the daemon script runs as process 4242. *)
Definition lab_procs (t : nat) (pid : Z) : pstatus :=
  if (pid =? 77)%Z then Alive
  else if (pid =? 88)%Z then AliveForeign
  else Absent.

Definition lab : Env :=
  MkEnv 4242 "/home/lab" (fun n => 1700000000 + Z.of_nat n) pretty lab_procs.

(** The same machine with a clock set back by an hour after its sixth
    reading (the end of daylight saving time). *)
Definition lab_dst : Env :=
  MkEnv 4242 "/home/lab"
    (fun n => if (n <? 8)%nat then 1700000000 + Z.of_nat n
              else 1700000000 + Z.of_nat n - 3600)
    pretty lab_procs.

(** The same machine as a second shell of the same user sees it while
    the daemon runs as process 4242: the shell's own commands run as
    process 4300. *)
Definition lab_shell : Env :=
  MkEnv 4300 "/home/lab" (fun n => 1700000000 + Z.of_nat n) pretty
    (fun t pid => if (pid =? 4242)%Z then Alive else lab_procs t pid).

(** The machine later on, when process 4242 is gone: the script is
    started again and runs as process 4400. *)
Definition lab_later : Env :=
  MkEnv 4400 "/home/lab" (fun n => 1700000000 + Z.of_nat n) pretty lab_procs.

(** No PID record and no log; a PID record with a given content. *)
Definition no_files : World := MkWorld None ∅ 0 [].

Definition recorded (content : string) : World := MkWorld (Some content) ∅ 0 [].

Definition test_daemon : SimpleDaemon := MkDaemon "daemon_test.log" 30.

(** The files an earlier run left behind: started on [no_files], two
    heartbeats, then interrupted at the terminal. *)
Definition after_first_run : World :=
  let w := snd (run lab test_daemon [Elapsed; Signalled SIGINT] no_files) in
  MkWorld (pid_file w) (log_files w) 0 [].

(** A table that holds the sample JK_9149, the form data and the
    uploaded row that name it again, and a database that takes every
    row.  In the uploaded file a cell is a string, empty for a missing
    value. *)
Definition stored : list (gmap string Registry.value) :=
  [Registry.register_row (Registry.Text "JK_9149") ∅].

Definition form_data : gmap string Registry.value :=
  {[ "SampleName" := Registry.Text "JK_9149"; "Tissue" := Registry.Text "Cervix" ]}.

Definition uploaded_row : gmap string string :=
  {[ "SampleName" := " JK_9149 "; "Tissue" := "Cervix" ]}.

Definition takes_all (table : list (gmap string Registry.value))
           (row : gmap string Registry.value) : bool := true.

Definition cell_notna (x : string) : bool := negb (String.eqb x "").

Definition cell_number (x : string) : Py.exn + Registry.value :=
  match Py.int x with
  | inr z => inr (Registry.Int z)
  | inl e => inl e
  end.

Definition cell_other (x : string) : Py.exn + Registry.value :=
  inr (Registry.Other x).

(** In the filled form a float is held by its text, "0.0" for the
    default of the number input. *)
Definition float_nonzero (x : string) : bool := negb (String.eqb x "0.0").

(** The form as it opens, with a name typed in: every other widget
    at its default. *)
Definition form_named (name : string) : Registry.Form.form string :=
  Registry.Form.MkForm string name "" "" "" "" "" "" "" "" "0.0" Registry.Null 0
    "" "" "" "raw" "" "" "".

End Samples.

(** ** Facts about the Python primitives *)

Module PyFacts.

Example int_plain : Py.int "4242" = inr 4242.
Proof. reflexivity. Qed.

Example int_padded : Py.int (" 12_345" +:+ String "010"%char "") = inr 12345.
Proof. reflexivity. Qed.

Example int_negative : Py.int "-7" = inr (-7).
Proof. reflexivity. Qed.

Example int_empty :
  Py.int "" = inl (Py.ValueError "invalid literal for int() with base 10: ''").
Proof. reflexivity. Qed.

Example int_rejects :
  Py.int_literal "12a" = None ∧ Py.int_literal "_1" = None
  ∧ Py.int_literal "1__0" = None ∧ Py.int_literal "1_" = None
  ∧ Py.int_literal "- 5" = None.
Proof. repeat split; reflexivity. Qed.

Example strip_both : Py.strip ("  a b " +:+ String "010"%char "") = "a b".
Proof. reflexivity. Qed.

(** *** Printing an integer and reading it back *)

Lemma digit_char c :
  Py.isdigit c = true →
  Py.isspace c = false ∧ Ascii.eqb c "_" = false
  ∧ Ascii.eqb c "+" = false ∧ Ascii.eqb c "-" = false.
Proof.
  destruct c as [[] [] [] [] [] [] [] []]; intros H; try discriminate H; repeat split.
Qed.

Lemma pretty_N_char_digit d :
  (d < 10)%N →
  Py.isdigit (pretty_N_char d) = true ∧ Py.digit_val (pretty_N_char d) = Z.of_N d.
Proof.
  intros Hd.
  assert (d = 0 ∨ d = 1 ∨ d = 2 ∨ d = 3 ∨ d = 4 ∨ d = 5 ∨ d = 6 ∨ d = 7 ∨ d = 8 ∨ d = 9)%N
    as Hcases by lia.
  repeat destruct Hcases as [-> | Hcases]; try subst d; split; reflexivity.
Qed.

Lemma pretty_N_go_alldigits x s :
  Py.alldigits s = true → Py.alldigits (pretty_N_go x s) = true.
Proof.
  revert s. induction (N.lt_wf_0 x) as [x _ IH]; intros s Hs.
  destruct (decide (0 < x)%N) as [Hx | Hx].
  - rewrite pretty_N_go_step by done. apply IH.
    + apply N.div_lt; [done | lia].
    + cbn [Py.alldigits]. rewrite Hs, andb_true_r.
      apply pretty_N_char_digit, N.mod_lt. lia.
  - replace x with 0%N by lia. now rewrite pretty_N_go_0.
Qed.

Lemma digits_val_pretty_N_go x s b :
  (0 < x)%N →
  Py.digits_val 0 b (pretty_N_go x s) = Py.digits_val (Z.of_N x) true s.
Proof.
  revert s b. induction (N.lt_wf_0 x) as [x _ IH]; intros s b Hx.
  rewrite pretty_N_go_step by done.
  destruct (pretty_N_char_digit (x `mod` 10)) as [Hd Hv]; [apply N.mod_lt; lia |].
  destruct (decide (0 < x `div` 10)%N) as [Hq | Hq].
  - rewrite IH; [| apply N.div_lt; [done | lia] | done].
    cbn [Py.digits_val]. rewrite Hd, Hv. f_equal.
    rewrite N2Z.inj_div, N2Z.inj_mod. change (Z.of_N 10) with 10.
    symmetry. now apply Z.div_mod.
  - assert (Hq0 : (x `div` 10)%N = 0%N) by (destruct (x `div` 10)%N; [done | lia]).
    rewrite Hq0, pretty_N_go_0.
    cbn [Py.digits_val]. rewrite Hd, Hv. f_equal.
    rewrite N2Z.inj_mod. change (Z.of_N 10) with 10.
    pose proof (Z.div_mod (Z.of_N x) 10 ltac:(discriminate)) as Hdm.
    assert (Hz : Z.of_N (x `div` 10) = 0) by (now rewrite Hq0).
    rewrite N2Z.inj_div in Hz. change (Z.of_N 10) with 10 in Hz.
    rewrite Hz in Hdm. lia.
Qed.

Lemma pretty_N_go_nonempty x s : (0 < x)%N → pretty_N_go x s ≠ "".
Proof.
  revert s. induction (N.lt_wf_0 x) as [x _ IH]; intros s Hx.
  rewrite pretty_N_go_step by done.
  destruct (decide (0 < x `div` 10)%N) as [Hq | Hq].
  - apply IH; [apply N.div_lt; [done | lia] | done].
  - assert (Hq0 : (x `div` 10)%N = 0%N) by (destruct (x `div` 10)%N; [done | lia]).
    now rewrite Hq0, pretty_N_go_0.
Qed.

Lemma lstrip_digits s : Py.alldigits s = true → Py.lstrip s = s.
Proof.
  destruct s as [| c r]; [reflexivity |]. cbn [Py.alldigits Py.lstrip].
  intros [Hc _]%andb_true_iff. now rewrite (proj1 (digit_char c Hc)).
Qed.

Lemma rstrip_digits s : Py.alldigits s = true → Py.rstrip s = s.
Proof.
  induction s as [| c r IH]; [reflexivity |]. cbn [Py.alldigits Py.rstrip].
  intros [Hc Hr]%andb_true_iff. rewrite (IH Hr).
  destruct r; [| reflexivity]. now rewrite (proj1 (digit_char c Hc)).
Qed.

Lemma int_literal_digits s :
  Py.alldigits s = true → Py.int_literal s = Py.digits_val 0 false s.
Proof.
  destruct s as [| c r]; [reflexivity |]. cbn [Py.alldigits].
  intros [Hc _]%andb_true_iff.
  destruct c as [[] [] [] [] [] [] [] []]; try discriminate Hc; reflexivity.
Qed.

(** [int(str(z)) == z]: what [write_pid] writes, the liveness checks
    read back. *)
Lemma int_pretty (z : Z) : Py.int (Py.strip (pretty z)) = inr z.
Proof.
  assert (Hpos : ∀ p, Py.alldigits (pretty (N.pos p)) = true
                      ∧ pretty (N.pos p) ≠ ""
                      ∧ Py.digits_val 0 false (pretty (N.pos p)) = Some (Z.pos p)).
  { intros p. unfold pretty, pretty_N. rewrite decide_False by done. split; [| split].
    - now apply pretty_N_go_alldigits.
    - now apply pretty_N_go_nonempty.
    - now rewrite digits_val_pretty_N_go. }
  assert (Hstrip : ∀ s, Py.alldigits s = true → Py.strip s = s).
  { intros s Hs. unfold Py.strip. now rewrite lstrip_digits, rstrip_digits. }
  unfold Py.int. destruct z as [| p | p]; [reflexivity | |].
  - destruct (Hpos p) as (Hd & _ & Hv). change (pretty (Z.pos p)) with (pretty (N.pos p)).
    rewrite !(Hstrip _ Hd), (int_literal_digits _ Hd). now rewrite Hv.
  - destruct (Hpos p) as (Hd & Hne & Hv).
    change (pretty (Z.neg p)) with (String "-" (pretty (N.pos p))).
    assert (Hs : Py.strip (String "-" (pretty (N.pos p))) = String "-" (pretty (N.pos p))).
    { unfold Py.strip.
      change (Py.lstrip (String "-" ?s)) with (String "-" s).
      cbn [Py.rstrip]. rewrite (rstrip_digits _ Hd).
      destruct (pretty (N.pos p)); [done | reflexivity]. }
    rewrite !Hs. cbn [Py.int_literal]. now rewrite Hv.
Qed.

(** [strip()] of a stripped string changes nothing. *)
Lemma rstrip_cons c r :
  Py.rstrip (String c r)
  = match Py.rstrip r with
    | EmptyString => if Py.isspace c then EmptyString else String c EmptyString
    | r' => String c r'
    end.
Proof. reflexivity. Qed.

Lemma rstrip_idempotent s : Py.rstrip (Py.rstrip s) = Py.rstrip s.
Proof.
  induction s as [| c r IH]; [reflexivity |].
  rewrite rstrip_cons. destruct (Py.rstrip r) as [| c' r'] eqn:Hr.
  - destruct (Py.isspace c) eqn:Hc; [reflexivity |].
    rewrite rstrip_cons. cbn [Py.rstrip]. now rewrite Hc.
  - rewrite rstrip_cons, IH. reflexivity.
Qed.

Lemma lstrip_head s :
  match Py.lstrip s with String c _ => Py.isspace c = false | EmptyString => True end.
Proof.
  induction s as [| c r IH]; [exact I |].
  cbn [Py.lstrip]. destruct (Py.isspace c) eqn:Hc; [exact IH | exact Hc].
Qed.

Lemma rstrip_head s :
  match s with String c _ => Py.isspace c = false | EmptyString => True end →
  match Py.rstrip s with String c _ => Py.isspace c = false | EmptyString => True end.
Proof.
  destruct s as [| c r]; [done |]. intros Hc. rewrite rstrip_cons.
  destruct (Py.rstrip r); [now rewrite Hc | exact Hc].
Qed.

Lemma lstrip_clean s :
  match s with String c _ => Py.isspace c = false | EmptyString => True end →
  Py.lstrip s = s.
Proof. destruct s as [| c r]; [done |]. intros Hc. cbn [Py.lstrip]. now rewrite Hc. Qed.

Lemma strip_idempotent s : Py.strip (Py.strip s) = Py.strip s.
Proof.
  unfold Py.strip.
  rewrite (lstrip_clean (Py.rstrip (Py.lstrip s))) by apply rstrip_head, lstrip_head.
  apply rstrip_idempotent.
Qed.

(** [int()] of a string raises nothing but [ValueError]. *)
Lemma int_raises s e : Py.int s = inl e → ∃ msg, e = Py.ValueError msg.
Proof.
  unfold Py.int. destruct (Py.int_literal (Py.strip s)); [discriminate |].
  intros [= <-]. eauto.
Qed.

End PyFacts.

(** ** The daemon: what the control commands and the loop do *)

Module DaemonSpec.

Import Daemon.

#[local] Opaque Py.int Py.strip pretty fits_pid_t Py.str_repeat.

Ltac munfold :=
  unfold status_daemon, stop_daemon, is_running, remove_pid, unlink_if_exists,
    mbind, M_bind, mret, M_ret, try_except, except_OSError,
    pid_exists, read_pid, of_sum, os_kill, print, unlink_pid, raise,
    time_sleep, open_log.

(** Opens a world whose PID record holds [pid]. *)
Ltac with_record H w :=
  let c := fresh "content" in
  let Hc := fresh "Hcontent" in
  let Hp := fresh "Hparse" in
  let Hf := fresh "Hfits" in
  destruct H as (c & Hc & Hp & Hf);
  destruct w as [pf lf t tr]; simpl in *; subst pf.

(** Goes through the members of a list met in hypothesis [H], dropping
    those that cannot be the element looked for. *)
Ltac in_cases H :=
  repeat (destruct H as [H | H]; [discriminate H |]); destruct H.

Ltac closing k :=
  apply (ex_intro _ k); rewrite <- ?app_assoc; cbn [app]; repeat (f_equal; try lia).

Section Commands.

Variable E : Env.

Lemma bind_Ok {A B} (m : M A) (k : A → M B) w a w' :
  m w = (Ok a, w') → (m ≫= k) w = k a w'.
Proof. intros H. unfold mbind, M_bind. now rewrite H. Qed.

(** *** status *)

Lemma status_no_record w :
  pid_file w = None →
  status_daemon E w
  = (Ok (), MkWorld None (log_files w) (tick w)
              (trace w ++ [Print "Daemon is NOT running (no PID file)"])).
Proof.
  intros H. destruct w as [pf lf t tr]; simpl in *; subst pf. reflexivity.
Qed.

Lemma status_probe_fails w pid :
  holds_pid w pid → proc_at E (tick w) pid ≠ Alive →
  status_daemon E w
  = (Ok (), MkWorld None (log_files w) (S (tick w))
              (trace w ++ [Kill pid 0 (errno_of (proc_at E (tick w) pid));
                           Print ("Daemon is NOT running (stale PID "
                                    +:+ pretty pid +:+ ")")])).
Proof.
  intros H Hdead. with_record H w.
  munfold. cbn. rewrite Hparse. cbn. rewrite Hfits. cbn.
  destruct (proc_at E t pid); [| done |]; cbn; now rewrite <- app_assoc.
Qed.

(** *** stop *)

Lemma stop_no_record w :
  pid_file w = None →
  stop_daemon E w
  = (Ok (), MkWorld None (log_files w) (tick w)
              (trace w ++ [Print "No daemon running (PID file not found)"])).
Proof.
  intros H. destruct w as [pf lf t tr]; simpl in *; subst pf. reflexivity.
Qed.

Lemma stop_record w pid :
  holds_pid w pid →
  ∃ n, stop_daemon E w
       = (Ok (), MkWorld None (log_files w) (tick w + n)
                   (trace w ++ stop_protocol E (tick w) pid)).
Proof.
  intros H. with_record H w. unfold stop_protocol.
  munfold. cbn. rewrite Hparse. cbn. rewrite Hfits. cbn.
  destruct (proc_at E t pid) eqn:H15; cbn; [closing 1%nat | | closing 1%nat].
  replace (S (S t)) with (t + 2)%nat by lia.
  destruct (proc_at E (t + 2) pid) eqn:H0; cbn; [closing 3%nat | | closing 3%nat].
  replace (S (t + 2)) with (t + 3)%nat by lia.
  destruct (proc_at E (t + 3) pid) eqn:H9; cbn; closing 4%nat.
Qed.

(** *** start *)

Lemma is_running_no_record w :
  pid_file w = None → is_running E w = (Ok false, w).
Proof.
  intros H. destruct w as [pf lf t tr]; simpl in *; subst pf. reflexivity.
Qed.

Lemma is_running_probe w pid :
  holds_pid w pid →
  is_running E w
  = match proc_at E (tick w) pid with
    | Alive =>
        (Ok true, MkWorld (pid_file w) (log_files w) (S (tick w))
                    (trace w ++ [Kill pid 0 0]))
    | s =>
        (Ok false, MkWorld None (log_files w) (S (tick w))
                     (trace w ++ [Kill pid 0 (errno_of s)]))
    end.
Proof.
  intros H. with_record H w.
  munfold. cbn. rewrite Hparse. cbn. rewrite Hfits. cbn.
  now destruct (proc_at E t pid).
Qed.

(** With a record whose process answers the probe, [start] prints
    the error and leaves with status 1; no file is touched. *)
Lemma start_refused_when_probe_succeeds d evs w pid :
  holds_pid w pid → proc_at E (tick w) pid = Alive →
  run E d evs w
  = (Raise (Py.SystemExit 1),
     MkWorld (pid_file w) (log_files w) (S (tick w))
       (trace w ++ [Kill pid 0 0;
                    Print "ERROR: Daemon is already running (PID file: daemon_test.pid)"])).
Proof.
  intros H Ha. unfold run.
  erewrite bind_Ok by (rewrite (is_running_probe w pid H), Ha; reflexivity).
  munfold. unfold sys_exit, raise. cbn. now rewrite <- app_assoc.
Qed.

End Commands.

(** *** The log store under the commands *)

#[local] Instance extends_preorder : PreOrder extends.
Proof.
  split.
  - intros logs path entries H. exists []. now rewrite app_nil_r.
  - intros l1 l2 l3 H12 H23 path entries H.
    destruct (H12 _ _ H) as [m1 H1]. destruct (H23 _ _ H1) as [m2 H2].
    exists (m1 ++ m2). now rewrite app_assoc.
Qed.

Section Keeps.

Variable R : relation (gmap string (list log_entry)).
Context `{!PreOrder R}.

Lemma keeps_ret {A} (a : A) : keeps R (mret a).
Proof. intros w. reflexivity. Qed.

Lemma keeps_raise {A} e : keeps R (@raise A e).
Proof. intros w. reflexivity. Qed.

Lemma keeps_bind {A B} (m : M A) (k : A → M B) :
  keeps R m → (∀ a, keeps R (k a)) → keeps R (m ≫= k).
Proof.
  intros Hm Hk w. unfold mbind, M_bind.
  specialize (Hm w). destruct (m w) as [[a | e | s | c] w']; simpl in *; try done.
  etransitivity; [exact Hm | apply Hk].
Qed.

Lemma keeps_try {A} (body : M A) handler :
  keeps R body → (∀ e h, handler e = Some h → keeps R h) →
  keeps R (try_except body handler).
Proof.
  intros Hb Hh w. unfold try_except.
  specialize (Hb w). destruct (body w) as [[a | e | s | c] w']; simpl in *; try done.
  destruct (handler e) as [h |] eqn:He; [| done].
  etransitivity; [exact Hb | eapply Hh, He].
Qed.

Lemma keeps_except_OSError {A} (h : Py.exn → M A) e h' :
  (∀ e, keeps R (h e)) → except_OSError h e = Some h' → keeps R h'.
Proof.
  unfold except_OSError. intros Hh. destruct (Py.is_OSError e); [| done].
  intros [= <-]. apply Hh.
Qed.

(** The primitives that leave every log file alone. *)
Lemma keeps_print line : keeps R (print line).
Proof. intros w. reflexivity. Qed.

Lemma keeps_pid_exists : keeps R pid_exists.
Proof. intros w. reflexivity. Qed.

Lemma keeps_read_pid : keeps R read_pid.
Proof. intros w. unfold read_pid. destruct (pid_file w); reflexivity. Qed.

Lemma keeps_unlink_pid : keeps R unlink_pid.
Proof. intros w. unfold unlink_pid. destruct (pid_file w); reflexivity. Qed.

Lemma keeps_write_pid_file c : keeps R (write_pid_file c).
Proof. intros w. reflexivity. Qed.

Lemma keeps_of_sum {A} (x : Py.exn + A) : keeps R (of_sum x).
Proof. intros w. destruct x; reflexivity. Qed.

Lemma keeps_os_kill E pid sig : keeps R (os_kill E pid sig).
Proof.
  intros w. unfold os_kill. destruct (negb (fits_pid_t pid)); [reflexivity |].
  destruct (proc_at E (tick w) pid); reflexivity.
Qed.

Lemma keeps_time_sleep secs ev : keeps R (time_sleep secs ev).
Proof.
  intros w. unfold time_sleep. destruct (secs <? 0)%Z; [reflexivity |].
  destruct ev as [| []]; reflexivity.
Qed.

Lemma keeps_open_log path : keeps R (open_log path).
Proof. intros w. reflexivity. Qed.

Lemma keeps_datetime_now E : keeps R (datetime_now E).
Proof. intros w. reflexivity. Qed.

Lemma keeps_print_all lines : keeps R (print_all lines).
Proof.
  induction lines as [| l ls IH]; [apply keeps_ret |].
  apply keeps_bind; [apply keeps_print | intros _; exact IH].
Qed.

Lemma keeps_unlink_if_exists : keeps R unlink_if_exists.
Proof.
  apply keeps_bind; [apply keeps_pid_exists |].
  intros []; [apply keeps_unlink_pid | apply keeps_ret].
Qed.

Lemma keeps_remove_pid : keeps R remove_pid.
Proof. exact keeps_unlink_if_exists. Qed.

Create HintDb keeps.

#[local] Hint Resolve keeps_ret keeps_raise keeps_print keeps_pid_exists keeps_read_pid
  keeps_unlink_pid keeps_write_pid_file keeps_of_sum keeps_os_kill
  keeps_time_sleep keeps_open_log keeps_datetime_now keeps_print_all
  keeps_unlink_if_exists keeps_remove_pid : keeps.

Ltac keeps_step :=
  cbv beta;
  lazymatch goal with
  | |- keeps _ (_ ≫= _) => apply keeps_bind; [| intros ?]
  | |- keeps _ (try_except _ _) =>
      apply keeps_try;
      [| intros ? ? ?; eapply keeps_except_OSError; [intros ?; cbv beta | eassumption]]
  | |- keeps _ (if ?b then _ else _) => destruct b
  | |- keeps _ (match ?x with _ => _ end) => destruct x
  | |- _ => solve [auto with keeps]
  end.

Lemma keeps_stop E : keeps R (stop_daemon E).
Proof. unfold stop_daemon. repeat keeps_step. Qed.

Lemma keeps_status E : keeps R (status_daemon E).
Proof. unfold status_daemon. repeat keeps_step. Qed.

Lemma keeps_is_running E : keeps R (is_running E).
Proof. unfold is_running. repeat keeps_step. Qed.

End Keeps.

(** Writing to the log only ever adds at the end. *)
Section AppendOnly.

Variable E : Env.

Lemma keeps_append_log path e : keeps extends (append_log path e).
Proof.
  intros w p entries H. simpl.
  destruct (decide (path = p)) as [-> | Hne].
  - rewrite lookup_insert_eq, H. simpl. eauto.
  - rewrite lookup_insert_ne by done. exists []. now rewrite app_nil_r.
Qed.

Lemma keeps_log d msg : keeps extends (log E d msg).
Proof.
  unfold log. apply keeps_bind; [apply _ | apply keeps_datetime_now; apply _ |].
  intros t. apply keeps_bind; [apply _ | apply keeps_append_log |].
  intros _. apply keeps_print; apply _.
Qed.

Lemma keeps_write_pid d : keeps extends (write_pid E d).
Proof.
  unfold write_pid. apply keeps_bind; [apply _ | apply keeps_write_pid_file; apply _ |].
  intros _. apply keeps_log.
Qed.

Lemma keeps_heartbeat_loop d evs c : keeps extends (heartbeat_loop E d evs c).
Proof.
  revert c. induction evs as [| ev evs IH]; intros c.
  - intros w. reflexivity.
  - cbn [heartbeat_loop].
    apply keeps_bind; [apply _ | apply keeps_log |]. intros _.
    apply keeps_bind; [apply _ | apply keeps_time_sleep; apply _ |]. intros _.
    apply IH.
Qed.

Lemma keeps_run d evs : keeps extends (run E d evs).
Proof.
  unfold run. apply keeps_bind; [apply _ | apply keeps_is_running; apply _ |].
  intros [].
  - apply keeps_bind; [apply _ | apply keeps_print; apply _ |]. intros _.
    apply keeps_raise; apply _.
  - repeat (apply keeps_bind; [apply _ | first [apply keeps_write_pid | apply keeps_log] |]; intros _).
    apply keeps_try; [apply _ | apply keeps_heartbeat_loop |].
    intros e h. unfold shutdown. destruct (Py.is_KeyboardInterrupt e); [| destruct (Py.is_Exception e)];
      intros [= <-].
    + repeat (apply keeps_bind; [apply _ | first [apply keeps_log | apply keeps_remove_pid; apply _] |]; intros _).
      apply keeps_log.
    + repeat (apply keeps_bind; [apply _ | first [apply keeps_log | apply keeps_remove_pid; apply _] |]; intros _).
      apply keeps_raise; apply _.
Qed.

Lemma keeps_main action interval path evs :
  keeps extends (main E action interval path evs).
Proof.
  destruct action; cbn [main].
  - apply keeps_run.
  - apply keeps_stop; apply _.
  - apply keeps_bind; [apply _ | apply keeps_print; apply _ |]. intros _.
    apply keeps_bind; [apply _ | apply keeps_stop; apply _ |]. intros _.
    apply keeps_bind; [apply _ | apply keeps_time_sleep; apply _ |]. intros _.
    apply keeps_bind; [apply _ | apply keeps_print; apply _ |]. intros _.
    apply keeps_run.
  - apply keeps_status; apply _.
Qed.

End AppendOnly.

(** *** The loop *)

Section Loop.

Variable E : Env.
Variable d : SimpleDaemon.

(** What one [log] call does to the world. *)
Lemma log_effect msg w :
  log E d msg w
  = (Ok (),
     MkWorld (pid_file w)
       (<[log_file d := log_of (log_file d) w ++ [LogEntry (now E (tick w)) msg]]>
          (log_files w))
       (S (tick w))
       (trace w ++ [Print (render E (LogEntry (now E (tick w)) msg))])).
Proof. reflexivity. Qed.

(** The same, seen through the daemon's own log file. *)
Lemma log_sees msg w :
  ∃ w', log E d msg w = (Ok (), w')
        ∧ pid_file w' = pid_file w
        ∧ log_of (log_file d) w' = log_of (log_file d) w ++ [LogEntry (now E (tick w)) msg]
        ∧ tick w' = S (tick w).
Proof.
  eexists. split; [apply log_effect |]. repeat split.
  unfold log_of at 1. simpl. now rewrite lookup_insert_eq.
Qed.

Lemma beats_S t c n :
  beats E t c (S n)
  = LogEntry (now E t) (heartbeat (c + 1)) :: beats E (t + 2) (c + 1) n.
Proof.
  unfold beats. cbn [seq fmap list_fmap]. f_equal.
  - f_equal; [f_equal; lia | f_equal; lia].
  - rewrite <- fmap_S_seq, <- list_fmap_compose. apply list_fmap_ext.
    intros i x _. simpl. f_equal; [f_equal; lia | f_equal; lia].
Qed.

(** [n] sleeps that run their time: the loop stands [n] iterations
    further, whatever comes next; the record is untouched and [n]
    heartbeat entries are appended. *)
Lemma loop_elapsed n c w :
  (0 ≤ check_interval d)%Z →
  ∃ w', (∀ rest, heartbeat_loop E d (replicate n Elapsed ++ rest) c w
                 = heartbeat_loop E d rest (c + Z.of_nat n) w')
        ∧ pid_file w' = pid_file w
        ∧ log_of (log_file d) w' = log_of (log_file d) w ++ beats E (tick w) c n
        ∧ tick w' = (tick w + 2 * n)%nat.
Proof.
  intros Hi. revert c w. induction n as [| n IH]; intros c w.
  - exists w. split; [intros rest; cbn [replicate app]; now rewrite Z.add_0_r |].
    now rewrite app_nil_r, Nat.add_0_r.
  - destruct (log_sees (heartbeat (c + 1)) w) as (w1 & Hlog & Hp1 & Hl1 & Ht1).
    set (w2 := MkWorld (pid_file w1) (log_files w1) (S (tick w1))
                 (trace w1 ++ [Sleep (check_interval d)])).
    destruct (IH (c + 1) w2) as (w' & Hloop & Hp & Hl & Ht).
    exists w'. split; [| split; [| split]].
    + intros rest. cbn [replicate app heartbeat_loop].
      unfold mbind at 1, M_bind at 1. rewrite Hlog.
      unfold mbind at 1, M_bind at 1. unfold time_sleep.
      destruct (Z.ltb_spec (check_interval d) 0) as [Hneg | _]; [lia |].
      fold w2. rewrite Hloop.
      now replace (c + Z.of_nat (S n)) with (c + 1 + Z.of_nat n) by lia.
    + rewrite Hp. simpl. exact Hp1.
    + rewrite Hl. unfold log_of at 1. cbn [w2 log_files]. fold (log_of (log_file d) w1).
      rewrite Hl1, beats_S, <- app_assoc. cbn [w2 tick]. rewrite Ht1.
      simpl. do 3 f_equal. lia.
    + rewrite Ht. cbn [w2 tick]. lia.
Qed.

(** A [log] call in sequence, and what it leaves behind. *)
Lemma bind_log {B} msg (k : unit → M B) w :
  (log E d msg ≫= k) w = k () (snd (log E d msg w)).
Proof. unfold mbind, M_bind. now rewrite log_effect. Qed.

Lemma pid_file_log msg w : pid_file (snd (log E d msg w)) = pid_file w.
Proof. reflexivity. Qed.

Lemma tick_log msg w : tick (snd (log E d msg w)) = S (tick w).
Proof. reflexivity. Qed.

Lemma log_of_log msg w :
  log_of (log_file d) (snd (log E d msg w))
  = log_of (log_file d) w ++ [LogEntry (now E (tick w)) msg].
Proof. rewrite log_effect. unfold log_of at 1. simpl. now rewrite lookup_insert_eq. Qed.

Lemma bind_write_pid {B} (k : unit → M B) w :
  (write_pid E d ≫= k) w
  = k () (snd (log E d ("Daemon started with PID: " +:+ pretty (getpid E))
                 (MkWorld (Some (pretty (getpid E))) (log_files w) (tick w) (trace w)))).
Proof. unfold write_pid, write_pid_file, mbind, M_bind. now rewrite log_effect. Qed.

(** A sleep of the daemon that a signal ends. *)
Lemma bind_sleep_signalled {B} (k : unit → M B) s w :
  (0 ≤ check_interval d)%Z →
  (time_sleep (check_interval d) (Signalled s) ≫= k) w
  = (match s with SIGINT => Raise Py.KeyboardInterrupt | _ => Die s end,
     MkWorld (pid_file w) (log_files w) (S (tick w))
       (trace w ++ [Sleep (check_interval d)])).
Proof.
  intros Hi. unfold mbind, M_bind, time_sleep.
  destruct (Z.ltb_spec (check_interval d) 0) as [Hneg | _]; [lia |].
  now destruct s.
Qed.

Lemma bind_remove_pid {B} (k : unit → M B) w :
  is_Some (pid_file w) →
  (remove_pid ≫= k) w = k () (MkWorld None (log_files w) (tick w) (trace w)).
Proof.
  intros [c Hc]. destruct w as [pf lf t tr]. simpl in Hc. subst pf. reflexivity.
Qed.

(** The last iteration of a run that a signal ends in its sleep: the
    heartbeat is logged; on SIGINT the handler logs twice and removes
    the record, on the other signals the process is gone. *)
Lemma last_iteration c s w :
  (0 ≤ check_interval d)%Z → is_Some (pid_file w) →
  let w1 := snd (log E d (heartbeat (c + 1)) w) in
  let w2 := MkWorld (pid_file w1) (log_files w1) (S (tick w1))
              (trace w1 ++ [Sleep (check_interval d)]) in
  try_except (heartbeat_loop E d [Signalled s] c) (shutdown E d) w
  = match s with
    | SIGINT =>
        let w3 := snd (log E d (LF +:+ "Received interrupt signal, shutting down...") w2) in
        log E d "Daemon stopped gracefully"
          (MkWorld None (log_files w3) (tick w3) (trace w3))
    | _ => (Die s, w2)
    end.
Proof.
  intros Hi Hp w1 w2. unfold try_except. cbn [heartbeat_loop].
  rewrite bind_log, bind_sleep_signalled by exact Hi. fold w1. fold w2.
  destruct s; [| reflexivity | reflexivity].
  cbn [shutdown Py.is_KeyboardInterrupt]. rewrite bind_log, bind_remove_pid; [reflexivity |].
  rewrite pid_file_log. exact Hp.
Qed.

(** A start that finds no instance running writes the record and
    the banner, and enters the loop. *)
Lemma run_enters_loop w :
  fst (is_running E w) = Ok false →
  ∃ w2 t, (∀ evs, run E d evs w
                  = try_except (heartbeat_loop E d evs 0) (shutdown E d) w2)
          ∧ pid_file w2 = Some (pretty (getpid E))
          ∧ log_of (log_file d) w2 = log_of (log_file d) w ++ banner E d t
          ∧ tick w2 = (t + 7)%nat.
Proof.
  intros Hr. pose proof (keeps_is_running eq E w) as Hlogs.
  destruct (is_running E w) as [r w1] eqn:Hrun. simpl in Hr, Hlogs. subst r.
  eexists _, (tick w1). split; [| split; [| split]].
  - intros evs. unfold run. rewrite (bind_Ok _ _ _ _ _ Hrun). cbv iota.
    rewrite bind_write_pid, !bind_log. reflexivity.
  - rewrite !pid_file_log. reflexivity.
  - rewrite !log_of_log, !tick_log, <- !app_assoc. cbn [app].
    unfold log_of at 1. cbn [log_files tick]. rewrite <- Hlogs. fold (log_of (log_file d) w).
    unfold banner. repeat (f_equal; try lia).
  - rewrite !tick_log. cbn [tick]. lia.
Qed.

(** After the start, [n] sleeps that run their time. *)
Lemma run_elapsed n w :
  (0 ≤ check_interval d)%Z → fst (is_running E w) = Ok false →
  ∃ w3 t, (∀ rest, run E d (replicate n Elapsed ++ rest) w
                   = try_except (heartbeat_loop E d rest (Z.of_nat n)) (shutdown E d) w3)
          ∧ pid_file w3 = Some (pretty (getpid E))
          ∧ log_of (log_file d) w3
            = log_of (log_file d) w ++ banner E d t ++ beats E (t + 7) 0 n
          ∧ tick w3 = (t + 7 + 2 * n)%nat.
Proof.
  intros Hi Hr.
  destruct (run_enters_loop w Hr) as (w2 & t & Hrun & Hp2 & Hl2 & Ht2).
  destruct (loop_elapsed n 0 w2 Hi) as (w3 & Hloop & Hp3 & Hl3 & Ht3).
  exists w3, t. split; [| split; [| split]].
  - intros rest. rewrite Hrun. unfold try_except. now rewrite Hloop.
  - congruence.
  - rewrite Hl3, Hl2, Ht2. now rewrite <- app_assoc.
  - lia.
Qed.

(** The record a start writes holds the pid of the script. *)
Lemma started_record_holds n w :
  (0 ≤ check_interval d)%Z → fst (is_running E w) = Ok false →
  fits_pid_t (getpid E) = true →
  holds_pid (snd (run E d (replicate n Elapsed) w)) (getpid E).
Proof.
  intros Hi Hr Hfits.
  destruct (run_elapsed n w Hi Hr) as (w3 & t & Hrun & Hp & _ & _).
  specialize (Hrun []). rewrite app_nil_r in Hrun. rewrite Hrun. cbn [heartbeat_loop try_except snd].
  exists (pretty (getpid E)). split; [exact Hp |]. split; [apply PyFacts.int_pretty | exact Hfits].
Qed.

(** The heartbeat lines among what a run writes. *)
Lemma heartbeats_banner t : heartbeats (banner E d t) = [].
Proof. reflexivity. Qed.

Lemma heartbeats_beats t c n : heartbeats (beats E t c n) = beats E t c n.
Proof.
  revert t c. induction n as [| n IH]; intros t c; [reflexivity |].
  rewrite beats_S. unfold heartbeats. rewrite filter_cons_True by reflexivity.
  f_equal. apply IH.
Qed.

Lemma messages_beats t n :
  message <$> beats E t 0 n = heartbeat <$> seqZ 1 (Z.of_nat n).
Proof.
  unfold beats, seqZ. rewrite <- !list_fmap_compose, Nat2Z.id.
  apply list_fmap_ext. intros i x _. simpl. f_equal. lia.
Qed.

Lemma stamps_beats_after t0 t c n :
  monotone_clock E → (t0 ≤ t)%nat →
  Forall (Z.le (now E t0)) (stamp <$> beats E t c n).
Proof.
  intros Hmono. revert t c. induction n as [| n IH]; intros t c Ht.
  - constructor.
  - rewrite beats_S. cbn [fmap list_fmap]. constructor.
    + apply Hmono, Ht.
    + apply IH. lia.
Qed.

Lemma stamps_beats_sorted t c n :
  monotone_clock E → StronglySorted Z.le (stamp <$> beats E t c n).
Proof.
  intros Hmono. revert t c. induction n as [| n IH]; intros t c.
  - constructor.
  - rewrite beats_S. cbn [fmap list_fmap]. constructor; [apply IH |].
    apply stamps_beats_after; [exact Hmono | lia].
Qed.

End Loop.

(** *** The commands and the loop against the specification *)

(** *** Stop without a record *)

(** C7.  With no PID record, [stop] prints its "not running" report
    and returns; it makes no system call (the tick stands still), the
    PID record stays absent and every log file is as before.  Called
    again on the resulting state it does exactly the same. *)
Theorem stop_without_record_is_noop (E : Env) (w : World) :
  pid_file w = None →
  let report := "No daemon running (PID file not found)" in
  let w1 := MkWorld None (log_files w) (tick w) (trace w ++ [Print report]) in
  not_running_report report = true
  ∧ stop_daemon E w = (Ok (), w1)
  ∧ stop_daemon E w1
    = (Ok (), MkWorld None (log_files w) (tick w) (trace w1 ++ [Print report])).
Proof.
  intros H report w1. split; [reflexivity |]. split.
  - now apply stop_no_record.
  - now rewrite stop_no_record.
Qed.

Lemma stop_without_record_is_noop_witness :
  let report := "No daemon running (PID file not found)" in
  pid_file Samples.no_files = None
  ∧ stop_daemon Samples.lab Samples.no_files
    = (Ok (), MkWorld None ∅ 0 [Print report]).
Proof.
  split; [reflexivity |].
  exact (proj1 (proj2 (stop_without_record_is_noop Samples.lab Samples.no_files eq_refl))).
Defined.

(** *** Stale records *)

(** C4.  When the PID record holds the id of a process that does not
    exist, [status] probes it, reports "NOT running" and deletes the
    record, leaving the logs alone; a second [status] finds no record
    and reports "NOT running" again, changing nothing. *)
Theorem status_heals_stale_record (E : Env) (w : World) (pid : Z) :
  holds_pid w pid → proc_at E (tick w) pid = Absent →
  let first := "Daemon is NOT running (stale PID " +:+ pretty pid +:+ ")" in
  let second := "Daemon is NOT running (no PID file)" in
  let w1 := MkWorld None (log_files w) (S (tick w))
              (trace w ++ [Kill pid 0 Py.ESRCH; Print first]) in
  status_daemon E w = (Ok (), w1)
  ∧ not_running_report first = true
  ∧ status_daemon E w1
    = (Ok (), MkWorld None (log_files w) (S (tick w)) (trace w1 ++ [Print second]))
  ∧ not_running_report second = true.
Proof.
  intros H Ha first second w1. split; [| split; [| split]].
  - rewrite (status_probe_fails E w pid H) by (rewrite Ha; discriminate).
    now rewrite Ha.
  - reflexivity.
  - now rewrite status_no_record.
  - reflexivity.
Qed.

Lemma status_heals_stale_record_witness :
  holds_pid (Samples.recorded "99") 99
  ∧ status_daemon Samples.lab (Samples.recorded "99")
    = (Ok (), MkWorld None ∅ 1
                [Kill 99 0 3; Print "Daemon is NOT running (stale PID 99)"]).
Proof.
  assert (H : holds_pid (Samples.recorded "99") 99)
    by (exists "99"; repeat split; vm_compute; reflexivity).
  split; [exact H |].
  exact (proj1 (status_heals_stale_record Samples.lab (Samples.recorded "99") 99
                  H eq_refl)).
Defined.

(** *** One instance at a time *)

(** X2.  While the daemon started by one process sleeps in its loop, a
    start attempted by another process that can signal it is refused:
    it prints the error, leaves with status 1 and touches neither the
    record nor a log.  ([E1] is what the system answers the first
    process, [E2] what it answers the second.) *)
Lemma second_start_is_refused (E1 E2 : Env) (d1 d2 : SimpleDaemon) (n : nat)
      (evs : list wakeup) (w : World) :
  (0 ≤ check_interval d1)%Z → fst (is_running E1 w) = Ok false →
  fits_pid_t (getpid E1) = true →
  let w1 := snd (run E1 d1 (replicate n Elapsed) w) in
  proc_at E2 (tick w1) (getpid E1) = Alive →
  let out := run E2 d2 evs w1 in
  fst out = Raise (Py.SystemExit 1)
  ∧ exit_status (fst out) = Some 1
  ∧ pid_file (snd out) = pid_file w1
  ∧ log_files (snd out) = log_files w1.
Proof.
  intros Hi Hr Hfits w1 Halive out.
  pose proof (started_record_holds E1 d1 n w Hi Hr Hfits) as Hholds. fold w1 in Hholds.
  unfold out. rewrite (start_refused_when_probe_succeeds E2 d2 evs w1 _ Hholds Halive).
  repeat split.
Qed.

(** *** A probe that fails *)

(** C10.  When the record holds a process id and the probe fails,
    because there is no such process or because the process lives
    under another user (EPERM), [is_running] deletes the record and
    answers false.  [start] then goes on exactly as from the state
    without a record: it records its own pid and enters the loop. *)
Theorem failed_probe_clears_record (E : Env) (d : SimpleDaemon) (w : World) (pid : Z) :
  holds_pid w pid → proc_at E (tick w) pid ≠ Alive →
  let w1 := MkWorld None (log_files w) (S (tick w))
              (trace w ++ [Kill pid 0 (errno_of (proc_at E (tick w) pid))]) in
  is_running E w = (Ok false, w1)
  ∧ is_running E w1 = (Ok false, w1)
  ∧ (∀ evs, run E d evs w = run E d evs w1)
  ∧ fst (run E d [] w) = Asleep 0
  ∧ pid_file (snd (run E d [] w)) = Some (pretty (getpid E)).
Proof.
  intros H Hdead w1.
  assert (Hrun : is_running E w = (Ok false, w1)).
  { rewrite (is_running_probe E w pid H). now destruct (proc_at E (tick w) pid). }
  assert (Hrun1 : is_running E w1 = (Ok false, w1)) by now apply is_running_no_record.
  split; [exact Hrun |]. split; [exact Hrun1 |]. split.
  - intros evs. unfold run. now rewrite (bind_Ok _ _ _ _ _ Hrun), (bind_Ok _ _ _ _ _ Hrun1).
  - destruct (run_enters_loop E d w) as (w2 & t & Hloop & Hp & _).
    { now rewrite Hrun. }
    rewrite Hloop. split; [reflexivity | exact Hp].
Qed.

Lemma failed_probe_clears_record_witness :
  holds_pid (Samples.recorded "88") 88
  ∧ proc_at Samples.lab 0 88 = AliveForeign
  ∧ is_running Samples.lab (Samples.recorded "88")
    = (Ok false, MkWorld None ∅ 1 [Kill 88 0 1]).
Proof.
  assert (H : holds_pid (Samples.recorded "88") 88)
    by (exists "88"; repeat split; vm_compute; reflexivity).
  split; [exact H |]. split; [reflexivity |].
  exact (proj1 (failed_probe_clears_record Samples.lab Samples.test_daemon
                  (Samples.recorded "88") 88 H ltac:(discriminate))).
Defined.

(** C2, at the input where the code departs from it.  The record
    holds 88, a live process of another user.  [start] does not fail:
    the probe raises [PermissionError], the record is taken for stale
    and deleted, the script writes its own pid 4242 over it, logs its
    banner and enters the loop. *)
Theorem start_over_foreign_instance :
  let w := Samples.recorded "88" in
  let out := run Samples.lab Samples.test_daemon [] w in
  holds_pid w 88
  ∧ proc_at Samples.lab (tick w) 88 = AliveForeign
  ∧ fst out = Asleep 0
  ∧ pid_file (snd out) = Some "4242"
  ∧ log_of "daemon_test.log" w = []
  ∧ length (log_of "daemon_test.log" (snd out)) = 7%nat.
Proof.
  split; [exists "88"; repeat split; vm_compute; reflexivity |].
  vm_compute. repeat split.
Qed.

(** *** Failures inside the control commands *)

Lemma print_all_effect lines w :
  print_all lines w
  = (Ok (), MkWorld (pid_file w) (log_files w) (tick w) (trace w ++ (Print <$> lines))).
Proof.
  revert w. induction lines as [| l ls IH]; intros [pf lf t tr].
  - cbn. now rewrite app_nil_r.
  - cbn [print_all]. unfold mbind, M_bind, print. cbn. rewrite IH. cbn.
    now rewrite <- app_assoc.
Qed.

Lemma failures_reported_prints lines : failures_reported (Print <$> lines) = true.
Proof. induction lines; [reflexivity | exact IHlines]. Qed.

Lemma failures_reported_protocol E t pid :
  failures_reported (stop_protocol E t pid) = true.
Proof.
  unfold stop_protocol.
  destruct (proc_at E t pid); [reflexivity | | reflexivity].
  destruct (proc_at E (t + 2) pid); [reflexivity | | reflexivity].
  destruct (proc_at E (t + 3) pid); reflexivity.
Qed.

Lemma status_probe_succeeds E w pid :
  holds_pid w pid → proc_at E (tick w) pid = Alive →
  status_daemon E w
  = (Ok (), MkWorld (pid_file w) (log_files w) (S (tick w))
              (trace w ++ running_report E w pid)).
Proof.
  intros H Ha. with_record H w. unfold running_report.
  munfold. cbn. rewrite Hparse. cbn. rewrite Hfits. cbn. rewrite Ha. cbn.
  destruct (lf !! status_log_path) as [entries |]; cbn.
  - rewrite print_all_effect. cbn. now rewrite <- !app_assoc.
  - now rewrite <- !app_assoc.
Qed.




(** *** Escalation in stop *)




(** *** The heartbeat loop *)

(** C6, as amended.  A start that finds no instance running, followed
    by [n] iterations whose sleeps run their time (the interval is not
    negative), leaves the loop at counter [n].  The entries it has
    added to the end of the log contain exactly [n] heartbeat lines,
    carrying the counters 1 to [n] in this order; their timestamps
    never decrease if the readings of the wall clock never do. *)
Theorem heartbeat_lines_of_a_run (E : Env) (d : SimpleDaemon) (n : nat) (w : World) :
  (0 ≤ check_interval d)%Z → fst (is_running E w) = Ok false →
  ∃ w' new,
    run E d (replicate n Elapsed) w = (Asleep (Z.of_nat n), w')
    ∧ log_of (log_file d) w' = log_of (log_file d) w ++ new
    ∧ length (heartbeats new) = n
    ∧ message <$> heartbeats new = heartbeat <$> seqZ 1 (Z.of_nat n)
    ∧ (monotone_clock E → StronglySorted Z.le (stamp <$> heartbeats new)).
Proof.
  intros Hi Hr.
  destruct (run_elapsed E d n w Hi Hr) as (w3 & t & Hrun & _ & Hlog & _).
  exists w3, (banner E d t ++ beats E (t + 7) 0 n).
  assert (Hb : heartbeats (banner E d t ++ beats E (t + 7) 0 n) = beats E (t + 7) 0 n).
  { unfold heartbeats. rewrite filter_app.
    fold (heartbeats (banner E d t)). fold (heartbeats (beats E (t + 7) 0 n)).
    now rewrite heartbeats_banner, heartbeats_beats. }
  rewrite Hb. split; [| split; [| split; [| split]]].
  - specialize (Hrun []). rewrite app_nil_r in Hrun. rewrite Hrun. reflexivity.
  - exact Hlog.
  - unfold beats. now rewrite length_fmap, length_seq.
  - apply messages_beats.
  - intros Hmono. now apply stamps_beats_sorted.
Qed.

Lemma heartbeat_lines_of_a_run_witness :
  (0 ≤ check_interval Samples.test_daemon)%Z
  ∧ fst (is_running Samples.lab Samples.no_files) = Ok false
  ∧ ∃ w' new,
      run Samples.lab Samples.test_daemon [Elapsed; Elapsed; Elapsed] Samples.no_files
      = (Asleep 3, w')
      ∧ log_of "daemon_test.log" w' = new
      ∧ message <$> heartbeats new = [heartbeat 1; heartbeat 2; heartbeat 3].
Proof.
  assert (Hi : (0 ≤ check_interval Samples.test_daemon)%Z) by (vm_compute; discriminate).
  split; [exact Hi |]. split; [reflexivity |].
  destruct (heartbeat_lines_of_a_run Samples.lab Samples.test_daemon 3 Samples.no_files
              Hi eq_refl) as (w' & new & Hrun & Hlog & _ & Hmsg & _).
  exists w', new. split; [exact Hrun |]. split; [exact Hlog |]. exact Hmsg.
Defined.

(** C6 as stated fails on the log as a whole: the file is opened for
    appending and never truncated, so the heartbeat lines of an
    earlier run stay in it.  After one iteration of a second run the
    log holds three heartbeat lines, with counters 1, 2, 1.  And the
    timestamps follow the wall clock: when it is set back between two
    heartbeats, the later line carries the earlier time. *)
Lemma heartbeats_of_second_run :
  let out := run Samples.lab Samples.test_daemon [Elapsed] Samples.after_first_run in
  let dst := run Samples.lab_dst Samples.test_daemon [Elapsed; Elapsed] Samples.no_files in
  fst out = Asleep 1
  ∧ message <$> heartbeats (log_of "daemon_test.log" (snd out))
    = [heartbeat 1; heartbeat 2; heartbeat 1]
  ∧ fst dst = Asleep 2
  ∧ stamp <$> heartbeats (log_of "daemon_test.log" (snd dst))
    = [1700000007; 1699996409].
Proof. vm_compute. repeat split. Qed.

(** *** Signals to the running daemon *)





(** ** The life cycle of the daemon, command after command *)

(** *** The record between the daemon and the control commands *)

(** X1.  What [write_pid] leaves in the PID file is [str(os.getpid())],
    and [int(f.read().strip())], as [is_running], [stop] and [status]
    read it, gives the process id back, whatever it is. *)
Theorem written_record_reads_back (E : Env) (d : SimpleDaemon) (w : World) :
  ∃ content, pid_file (snd (write_pid E d w)) = Some content
             ∧ content = pretty (getpid E)
             ∧ Py.int (Py.strip content) = inr (getpid E).
Proof.
  exists (pretty (getpid E)). split; [| split; [reflexivity | apply PyFacts.int_pretty]].
  unfold write_pid. unfold mbind at 1, M_bind at 1, write_pid_file.
  now rewrite pid_file_log.
Qed.

Lemma second_start_is_refused_witness :
  let w1 := snd (run Samples.lab Samples.test_daemon [Elapsed; Elapsed] Samples.no_files) in
  let out := run Samples.lab_shell Samples.test_daemon [] w1 in
  proc_at Samples.lab_shell (tick w1) (getpid Samples.lab) = Alive
  ∧ fst out = Raise (Py.SystemExit 1)
  ∧ pid_file (snd out) = Some "4242".
Proof.
  assert (Hi : (0 ≤ check_interval Samples.test_daemon)%Z) by (vm_compute; discriminate).
  assert (Hf : fits_pid_t (getpid Samples.lab) = true) by (vm_compute; reflexivity).
  destruct (second_start_is_refused Samples.lab Samples.lab_shell Samples.test_daemon
              Samples.test_daemon 2 [] Samples.no_files Hi eq_refl Hf eq_refl)
    as (Hres & _ & Hp & _).
  split; [reflexivity |]. split; [exact Hres |].
  cbv zeta. cbn [replicate] in Hp. rewrite Hp. vm_compute. reflexivity.
Defined.

(** X3.  After a start by one process and [n] iterations, [stop] called
    from another process reads the daemon's process id from the
    record, announces it and sends signal 15 to it; whatever the
    signals answer it returns with the record deleted and the logs as
    they were. *)
Theorem stop_reaches_started_daemon (E1 E2 : Env) (d : SimpleDaemon) (n : nat) (w : World) :
  (0 ≤ check_interval d)%Z → fst (is_running E1 w) = Ok false →
  fits_pid_t (getpid E1) = true →
  let w1 := snd (run E1 d (replicate n Elapsed) w) in
  ∃ w2 rest,
    stop_daemon E2 w1 = (Ok (), w2)
    ∧ pid_file w2 = None
    ∧ log_files w2 = log_files w1
    ∧ trace w2
      = trace w1
        ++ Print ("Stopping daemon with PID " +:+ pretty (getpid E1) +:+ "...")
        :: Kill (getpid E1) 15 (errno_of (proc_at E2 (tick w1) (getpid E1)))
        :: rest.
Proof.
  intros Hi Hr Hfits w1.
  pose proof (started_record_holds E1 d n w Hi Hr Hfits) as Hholds. fold w1 in Hholds.
  destruct (stop_record E2 w1 _ Hholds) as [k ->].
  eexists _, _. do 3 (split; [reflexivity |]). reflexivity.
Qed.

Lemma stop_reaches_started_daemon_witness :
  let w1 := snd (run Samples.lab Samples.test_daemon [Elapsed; Elapsed] Samples.no_files) in
  (0 ≤ check_interval Samples.test_daemon)%Z
  ∧ fst (is_running Samples.lab Samples.no_files) = Ok false
  ∧ fits_pid_t (getpid Samples.lab) = true
  ∧ ∃ w2 rest, stop_daemon Samples.lab_shell w1 = (Ok (), w2)
               ∧ pid_file w2 = None
               ∧ trace w2 = trace w1 ++ Print "Stopping daemon with PID 4242..."
                                     :: Kill 4242 15 0 :: rest.
Proof.
  assert (Hi : (0 ≤ check_interval Samples.test_daemon)%Z) by (vm_compute; discriminate).
  assert (Hf : fits_pid_t (getpid Samples.lab) = true) by (vm_compute; reflexivity).
  split; [exact Hi |]. split; [reflexivity |]. split; [exact Hf |].
  destruct (stop_reaches_started_daemon Samples.lab Samples.lab_shell Samples.test_daemon
              2 Samples.no_files Hi eq_refl Hf)
    as (w2 & rest & Hstop & Hp & _ & Htrace).
  exists w2, rest. split; [exact Hstop |]. split; [exact Hp |]. exact Htrace.
Defined.

(** *** Stop, then status or stop again *)



(** *** A record that is not a number *)

(** X5.  When the PID file holds something [int()] refuses, every command
    of the script ends with that [ValueError] (a traceback and exit
    status 1) and leaves the PID file and the logs as they are: no
    command of the script gets past such a record or removes it. *)
Theorem malformed_record_blocks_every_command
        (E : Env) (action : command) (interval : Z) (path : string)
        (evs : list wakeup) (w : World) (content : string) (e : Py.exn) :
  pid_file w = Some content → Py.int (Py.strip content) = inl e →
  let out := main E action interval path evs w in
  fst out = Raise e
  ∧ exit_status (fst out) = Some 1
  ∧ pid_file (snd out) = pid_file w
  ∧ log_files (snd out) = log_files w.
Proof.
  intros Hc Hparse out.
  destruct (PyFacts.int_raises _ _ Hparse) as [msg ->].
  destruct w as [pf lf t tr]; simpl in Hc; subst pf.
  unfold out. destruct action; unfold main, run; munfold; cbn; rewrite Hparse; cbn;
    repeat split.
Qed.

Lemma malformed_record_blocks_every_command_witness :
  let e := Py.ValueError "invalid literal for int() with base 10: 'abc'" in
  Py.int (Py.strip ("abc" +:+ LF)) = inl e
  ∧ fst (main Samples.lab Restart 30 "daemon_test.log" [Elapsed]
           (Samples.recorded ("abc" +:+ LF))) = Raise e
  ∧ pid_file (snd (main Samples.lab Restart 30 "daemon_test.log" [Elapsed]
                     (Samples.recorded ("abc" +:+ LF)))) = Some ("abc" +:+ LF).
Proof.
  assert (Hparse : Py.int (Py.strip ("abc" +:+ LF))
                   = inl (Py.ValueError "invalid literal for int() with base 10: 'abc'"))
    by (vm_compute; reflexivity).
  split; [exact Hparse |].
  destruct (malformed_record_blocks_every_command Samples.lab Restart 30 "daemon_test.log"
              [Elapsed] (Samples.recorded ("abc" +:+ LF)) _ _ eq_refl Hparse)
    as (Hres & _ & Hp & _).
  split; [exact Hres | exact Hp].
Defined.

(** *** A fault inside the loop *)

Lemma bind_sleep_negative {B} (d : SimpleDaemon) (k : unit → M B) ev w :
  (check_interval d < 0)%Z →
  (time_sleep (check_interval d) ev ≫= k) w
  = (Raise (Py.ValueError "sleep length must be non-negative"), w).
Proof.
  intros Hneg. unfold mbind, M_bind, time_sleep.
  destruct (Z.ltb_spec (check_interval d) 0) as [_ | Hge]; [reflexivity | lia].
Qed.

(** X6.  With a negative [--interval] the first [time.sleep] raises
    [ValueError].  The start that found no instance running has by
    then written the record, the banner and heartbeat #1; the handler
    for [Exception] logs the error, removes the record and raises
    again: the script ends with exit status 1, and the log ends on
    the heartbeat and the ERROR line. *)
Theorem negative_interval_is_a_loop_fault
        (E : Env) (d : SimpleDaemon) (ev : wakeup) (evs : list wakeup) (w : World) :
  (check_interval d < 0)%Z → fst (is_running E w) = Ok false →
  let out := run E d (ev :: evs) w in
  fst out = Raise (Py.ValueError "sleep length must be non-negative")
  ∧ exit_status (fst out) = Some 1
  ∧ pid_file (snd out) = None
  ∧ ∃ t, log_of (log_file d) (snd out)
         = log_of (log_file d) w ++ banner E d t
           ++ [LogEntry (now E (t + 7)) (heartbeat 1);
               LogEntry (now E (t + 8)) "ERROR: sleep length must be non-negative"].
Proof.
  intros Hneg Hr out.
  destruct (run_enters_loop E d w Hr) as (w2 & t & Hrun & Hp2 & Hl2 & Ht2).
  unfold out. rewrite Hrun. unfold try_except. cbn [heartbeat_loop].
  rewrite bind_log, bind_sleep_negative by exact Hneg.
  cbn [shutdown Py.is_KeyboardInterrupt Py.is_Exception].
  rewrite bind_log, bind_remove_pid by (rewrite !pid_file_log, Hp2; eauto).
  cbn [fst snd pid_file exit_status raise]. do 3 (split; [reflexivity |]).
  exists t. unfold log_of at 1. cbn [log_files].
  change (default [] (log_files ?w !! log_file d)) with (log_of (log_file d) w).
  rewrite !log_of_log, !tick_log, Hl2, Ht2, <- !app_assoc. cbn [app Py.str_exn].
  do 3 f_equal. f_equal. f_equal. f_equal. lia.
Qed.

Lemma negative_interval_is_a_loop_fault_witness :
  let d := MkDaemon "daemon_test.log" (-5) in
  let out := run Samples.lab d [Elapsed] Samples.no_files in
  (check_interval d < 0)%Z
  ∧ fst (is_running Samples.lab Samples.no_files) = Ok false
  ∧ fst out = Raise (Py.ValueError "sleep length must be non-negative")
  ∧ pid_file (snd out) = None.
Proof.
  assert (Hneg : (check_interval (MkDaemon "daemon_test.log" (-5)) < 0)%Z)
    by (vm_compute; reflexivity).
  split; [exact Hneg |]. split; [reflexivity |].
  destruct (negative_interval_is_a_loop_fault Samples.lab (MkDaemon "daemon_test.log" (-5))
              Elapsed [] Samples.no_files Hneg eq_refl) as (Hres & _ & Hp & _).
  split; [exact Hres | exact Hp].
Defined.

(** *** Restart *)



(** *** Which log file the commands write *)

#[local] Instance same_at_preorder p : PreOrder (same_at p).
Proof.
  split; [intros logs; reflexivity |].
  intros l1 l2 l3 H12 H23. unfold same_at in *. congruence.
Qed.

(** The writers of the log under any relation that appending to the
    daemon's own log file keeps. *)
Section LogWriters.

Variable R : relation (gmap string (list log_entry)).
Context `{!PreOrder R}.
Variable E : Env.
Variable d : SimpleDaemon.
Hypothesis Happend : ∀ e, keeps R (append_log (log_file d) e).

Lemma writer_log msg : keeps R (log E d msg).
Proof.
  unfold log. apply keeps_bind; [apply _ | apply keeps_datetime_now; apply _ |].
  intros t. apply keeps_bind; [apply _ | apply Happend |].
  intros _. apply keeps_print; apply _.
Qed.

Lemma writer_write_pid : keeps R (write_pid E d).
Proof.
  unfold write_pid. apply keeps_bind; [apply _ | apply keeps_write_pid_file; apply _ |].
  intros _. apply writer_log.
Qed.

Lemma writer_loop evs c : keeps R (heartbeat_loop E d evs c).
Proof.
  revert c. induction evs as [| ev evs IH]; intros c.
  - intros w. reflexivity.
  - cbn [heartbeat_loop].
    apply keeps_bind; [apply _ | apply writer_log |]. intros _.
    apply keeps_bind; [apply _ | apply keeps_time_sleep; apply _ |]. intros _.
    apply IH.
Qed.

Lemma writer_run evs : keeps R (run E d evs).
Proof.
  unfold run. apply keeps_bind; [apply _ | apply keeps_is_running; apply _ |].
  intros [].
  - apply keeps_bind; [apply _ | apply keeps_print; apply _ |]. intros _.
    apply keeps_raise; apply _.
  - repeat (apply keeps_bind;
            [apply _ | first [apply writer_write_pid | apply writer_log] |]; intros _).
    apply keeps_try; [apply _ | apply writer_loop |].
    intros e h. unfold shutdown.
    destruct (Py.is_KeyboardInterrupt e); [| destruct (Py.is_Exception e)]; intros [= <-].
    + repeat (apply keeps_bind;
              [apply _ | first [apply writer_log | apply keeps_remove_pid; apply _] |];
              intros _).
      apply writer_log.
    + repeat (apply keeps_bind;
              [apply _ | first [apply writer_log | apply keeps_remove_pid; apply _] |];
              intros _).
      apply keeps_raise; apply _.
Qed.

End LogWriters.

Lemma append_elsewhere p path e : p ≠ path → keeps (same_at p) (append_log path e).
Proof. intros Hne w. unfold same_at. simpl. now rewrite lookup_insert_ne. Qed.



(** *** Status of a running daemon *)

Lemma printed_app tr tr' : printed (tr ++ tr') = printed tr ++ printed tr'.
Proof. apply omap_app. Qed.

Lemma printed_prints lines : printed (Print <$> lines) = lines.
Proof.
  induction lines as [| l ls IH]; [reflexivity |].
  rewrite fmap_cons. change (printed (Print l :: (Print <$> ls))) with (l :: printed (Print <$> ls)).
  now rewrite IH.
Qed.

Lemma split_lines_length s : (1 ≤ length (Py.split_lines s))%nat.
Proof.
  induction s as [| c r IH]; simpl; [lia |].
  destruct (Ascii.eqb c "010"); simpl; [lia |].
  destruct (Py.split_lines r); simpl; lia.
Qed.

Lemma readlines_length E entries : (length entries ≤ length (readlines E entries))%nat.
Proof.
  unfold readlines. induction entries as [| e es IH]; [reflexivity |].
  cbn [flat_map length]. rewrite length_app.
  pose proof (split_lines_length (render E e)). lia.
Qed.

Lemma last5_length {A} (l : list A) : (5 ≤ length l)%nat → length (last5 l) = 5%nat.
Proof. intros H. unfold last5. rewrite length_drop. lia. Qed.



(** *** What the daemon prints and what it logs *)

Section Preserves.

Variable R : relation World.
Context `{!PreOrder R}.

Lemma preserves_ret {A} (a : A) : preserves R (mret a).
Proof. intros w. reflexivity. Qed.

Lemma preserves_raise {A} e : preserves R (@raise A e).
Proof. intros w. reflexivity. Qed.

Lemma preserves_bind {A B} (m : M A) (k : A → M B) :
  preserves R m → (∀ a, preserves R (k a)) → preserves R (m ≫= k).
Proof.
  intros Hm Hk w. unfold mbind, M_bind.
  specialize (Hm w). destruct (m w) as [[a | e | s | c] w']; simpl in *; try done.
  etransitivity; [exact Hm | apply Hk].
Qed.

Lemma preserves_try {A} (body : M A) handler :
  preserves R body → (∀ e h, handler e = Some h → preserves R h) →
  preserves R (try_except body handler).
Proof.
  intros Hb Hh w. unfold try_except.
  specialize (Hb w). destruct (body w) as [[a | e | s | c] w']; simpl in *; try done.
  destruct (handler e) as [h |] eqn:He; [| done].
  etransitivity; [exact Hb | eapply Hh, He].
Qed.

End Preserves.

#[local] Instance quiet_preorder : PreOrder quiet.
Proof.
  split; [intros w; split; reflexivity |].
  intros w1 w2 w3 [Hl12 Hp12] [Hl23 Hp23]. split; congruence.
Qed.

(** The liveness check and the removal of the record neither log nor
    print. *)
Section Quiet.

Variable E : Env.

Lemma quiet_pid_exists : preserves quiet pid_exists.
Proof. intros w. split; reflexivity. Qed.

Lemma quiet_read_pid : preserves quiet read_pid.
Proof. intros w. unfold read_pid. destruct (pid_file w); split; reflexivity. Qed.

Lemma quiet_unlink_pid : preserves quiet unlink_pid.
Proof. intros w. unfold unlink_pid. destruct (pid_file w); split; reflexivity. Qed.

Lemma quiet_write_pid_file c : preserves quiet (write_pid_file c).
Proof. intros w. split; reflexivity. Qed.

Lemma quiet_of_sum {A} (x : Py.exn + A) : preserves quiet (of_sum x).
Proof. intros w. destruct x; split; reflexivity. Qed.

Lemma quiet_os_kill pid sig : preserves quiet (os_kill E pid sig).
Proof.
  intros w. unfold os_kill. destruct (negb (fits_pid_t pid)); [split; reflexivity |].
  destruct (proc_at E (tick w) pid); (split; [reflexivity |]);
    cbn [snd trace]; rewrite printed_app; apply app_nil_r.
Qed.

Lemma quiet_time_sleep secs ev : preserves quiet (time_sleep secs ev).
Proof.
  intros w. unfold time_sleep. destruct (secs <? 0)%Z; [split; reflexivity |].
  destruct ev as [| []]; (split; [reflexivity |]);
    cbn [snd trace]; rewrite printed_app; apply app_nil_r.
Qed.

Lemma quiet_remove_pid : preserves quiet remove_pid.
Proof.
  apply preserves_bind; [apply _ | apply quiet_pid_exists |].
  intros []; [apply quiet_unlink_pid | apply preserves_ret; apply _].
Qed.

Lemma quiet_is_running : preserves quiet (is_running E).
Proof.
  unfold is_running. apply preserves_bind; [apply _ | apply quiet_pid_exists |].
  intros []; cbn [negb]; [| apply preserves_ret; apply _].
  apply preserves_bind; [apply _ | apply quiet_read_pid |]. intros content.
  apply preserves_bind; [apply _ | apply quiet_of_sum |]. intros pid.
  apply preserves_try; [apply _ | |].
  - apply preserves_bind; [apply _ | apply quiet_os_kill |]. intros _.
    apply preserves_ret; apply _.
  - intros e h. unfold except_OSError. destruct (Py.is_OSError e); [| done].
    intros [= <-]. apply preserves_bind; [apply _ | apply quiet_remove_pid |].
    intros _. apply preserves_ret; apply _.
Qed.

End Quiet.

Section Mirror.

Variable E : Env.
Variable d : SimpleDaemon.

#[local] Instance mirrors_preorder : PreOrder (mirrors E d).
Proof.
  split.
  - intros w. exists []. now rewrite !app_nil_r.
  - intros w1 w2 w3 (n12 & Hl12 & Hp12) (n23 & Hl23 & Hp23). exists (n12 ++ n23).
    rewrite Hl23, Hl12, Hp23, Hp12, fmap_app, !app_assoc. done.
Qed.

Lemma quiet_mirrors {A} (m : M A) : preserves quiet m → preserves (mirrors E d) m.
Proof.
  intros Hq w. destruct (Hq w) as [Hl Hp]. exists [].
  unfold log_of. now rewrite Hl, Hp, !app_nil_r.
Qed.

Lemma mirrors_log msg : preserves (mirrors E d) (log E d msg).
Proof.
  intros w. exists [LogEntry (now E (tick w)) msg]. split; [apply log_of_log |].
  rewrite log_effect. cbn [snd trace]. now rewrite printed_app.
Qed.

Lemma mirrors_loop evs c : preserves (mirrors E d) (heartbeat_loop E d evs c).
Proof.
  revert c. induction evs as [| ev evs IH]; intros c.
  - intros w. reflexivity.
  - cbn [heartbeat_loop].
    apply preserves_bind; [apply _ | apply mirrors_log |]. intros _.
    apply preserves_bind; [apply _ | apply quiet_mirrors, quiet_time_sleep |]. intros _.
    apply IH.
Qed.

Lemma mirrors_shutdown e h : shutdown E d e = Some h → preserves (mirrors E d) h.
Proof.
  unfold shutdown.
  destruct (Py.is_KeyboardInterrupt e); [| destruct (Py.is_Exception e)]; intros [= <-].
  - apply preserves_bind; [apply _ | apply mirrors_log |]. intros _.
    apply preserves_bind; [apply _ | apply quiet_mirrors, quiet_remove_pid |]. intros _.
    apply mirrors_log.
  - apply preserves_bind; [apply _ | apply mirrors_log |]. intros _.
    apply preserves_bind; [apply _ | apply quiet_mirrors, quiet_remove_pid |]. intros _.
    apply preserves_raise; apply _.
Qed.

Lemma mirrors_started evs :
  preserves (mirrors E d)
    (write_pid E d;;
     log E d (Py.str_repeat 60 "=");;
     log E d "Simple Daemon Test Started";;
     log E d ("Check interval: " +:+ pretty (check_interval d) +:+ " seconds");;
     log E d ("Log file: " +:+ absolute E (log_file d));;
     log E d ("PID file: " +:+ absolute E pid_path);;
     log E d (Py.str_repeat 60 "=");;
     try_except (heartbeat_loop E d evs 0) (shutdown E d)).
Proof.
  apply preserves_bind; [apply _ | | intros _].
  { unfold write_pid.
    apply preserves_bind; [apply _ | apply quiet_mirrors, quiet_write_pid_file |].
    intros _. apply mirrors_log. }
  repeat (apply preserves_bind; [apply _ | apply mirrors_log | intros _]).
  apply preserves_try; [apply _ | apply mirrors_loop | apply mirrors_shutdown].
Qed.

End Mirror.

(** X10.  A start that finds no instance running prints what it logs:
    however the run ends (asleep, interrupted, terminated by a signal
    or by a fault), the entries it has added to its log file are,
    rendered, exactly the lines it has printed, in the same order. *)
Theorem stdout_mirrors_log (E : Env) (d : SimpleDaemon) (evs : list wakeup) (w : World) :
  fst (is_running E w) = Ok false →
  let w' := snd (run E d evs w) in
  ∃ new, log_of (log_file d) w' = log_of (log_file d) w ++ new
         ∧ printed (trace w') = printed (trace w) ++ (render E <$> new).
Proof.
  intros Hr w'. change (mirrors E d w w').
  pose proof (quiet_mirrors E d _ (quiet_is_running E) w) as Hcheck.
  unfold w', run. destruct (is_running E w) as [r w1] eqn:Hrun.
  simpl in Hr, Hcheck. subst r. rewrite (bind_Ok _ _ _ _ _ Hrun). cbv iota.
  pose proof (mirrors_preorder E d). etransitivity; [exact Hcheck |].
  apply mirrors_started.
Qed.

Lemma stdout_mirrors_log_witness :
  let w' := snd (run Samples.lab Samples.test_daemon [Elapsed; Signalled SIGINT]
                   Samples.no_files) in
  fst (is_running Samples.lab Samples.no_files) = Ok false
  ∧ ∃ new, log_of "daemon_test.log" w' = new
           ∧ printed (trace w') = render Samples.lab <$> new.
Proof.
  split; [reflexivity |].
  destruct (stdout_mirrors_log Samples.lab Samples.test_daemon [Elapsed; Signalled SIGINT]
              Samples.no_files eq_refl) as (new & Hlog & Hprinted).
  exists new. split; [exact Hlog | exact Hprinted].
Defined.

(** *** After the daemon was killed *)

(** X11.  A daemon that SIGTERM or SIGKILL ends in its sleep leaves its
    record behind, holding its process id.  A later start is refused
    with status 1 exactly when some process answers the probe under
    that number (by then another process, the daemon being gone);
    otherwise the record is taken for stale and the start goes
    through, recording the new process id. *)
Theorem start_after_the_daemon_was_killed
        (E1 E2 : Env) (d1 d2 : SimpleDaemon) (n : nat) (s : signal) (w : World) :
  (0 ≤ check_interval d1)%Z → fst (is_running E1 w) = Ok false →
  fits_pid_t (getpid E1) = true → s ≠ SIGINT →
  let killed := run E1 d1 (replicate n Elapsed ++ [Signalled s]) w in
  let again := run E2 d2 [] (snd killed) in
  fst killed = Die s
  ∧ holds_pid (snd killed) (getpid E1)
  ∧ (proc_at E2 (tick (snd killed)) (getpid E1) = Alive →
     fst again = Raise (Py.SystemExit 1) ∧ pid_file (snd again) = pid_file (snd killed))
  ∧ (proc_at E2 (tick (snd killed)) (getpid E1) ≠ Alive →
     fst again = Asleep 0 ∧ pid_file (snd again) = Some (pretty (getpid E2))).
Proof.
  intros Hi Hr Hfits Hs killed again.
  destruct (run_elapsed E1 d1 n w Hi Hr) as (w3 & t & Hrun & Hp & _ & _).
  assert (Hsome : is_Some (pid_file w3)) by (rewrite Hp; eauto).
  assert (Hkilled : fst killed = Die s ∧ pid_file (snd killed) = Some (pretty (getpid E1))).
  { unfold killed. rewrite Hrun, (last_iteration E1 d1 _ s w3 Hi Hsome).
    destruct s; [done | |]; cbn [fst snd pid_file]; now rewrite pid_file_log. }
  destruct Hkilled as [Hdie Hrecord].
  assert (Hholds : holds_pid (snd killed) (getpid E1)).
  { exists (pretty (getpid E1)). split; [exact Hrecord |].
    split; [apply PyFacts.int_pretty | exact Hfits]. }
  split; [exact Hdie |]. split; [exact Hholds |]. split.
  - intros Halive. unfold again.
    rewrite (start_refused_when_probe_succeeds E2 d2 [] _ _ Hholds Halive).
    split; reflexivity.
  - intros Hdead. unfold again.
    destruct (run_enters_loop E2 d2 (snd killed)) as (w2 & t2 & Hloop & Hp2 & _).
    { rewrite (is_running_probe E2 _ _ Hholds).
      now destruct (proc_at E2 (tick (snd killed)) (getpid E1)). }
    rewrite Hloop. split; [reflexivity | exact Hp2].
Qed.

Lemma start_after_the_daemon_was_killed_witness :
  let killed := run Samples.lab Samples.test_daemon [Elapsed; Signalled SIGTERM]
                  Samples.no_files in
  let again := run Samples.lab_later Samples.test_daemon [] (snd killed) in
  proc_at Samples.lab_later (tick (snd killed)) (getpid Samples.lab) ≠ Alive
  ∧ fst killed = Die SIGTERM
  ∧ fst again = Asleep 0
  ∧ pid_file (snd again) = Some (pretty 4400).
Proof.
  assert (Hi : (0 ≤ check_interval Samples.test_daemon)%Z) by (vm_compute; discriminate).
  assert (Hf : fits_pid_t (getpid Samples.lab) = true) by (vm_compute; reflexivity).
  assert (Hs : SIGTERM ≠ SIGINT) by discriminate.
  destruct (start_after_the_daemon_was_killed Samples.lab Samples.lab_later
              Samples.test_daemon Samples.test_daemon 1 SIGTERM Samples.no_files
              Hi eq_refl Hf Hs) as (Hdie & _ & _ & Hdead).
  assert (Hgone : proc_at Samples.lab_later
                    (tick (snd (run Samples.lab Samples.test_daemon
                                  [Elapsed; Signalled SIGTERM] Samples.no_files)))
                    (getpid Samples.lab) ≠ Alive) by (vm_compute; discriminate).
  split; [exact Hgone |]. split; [exact Hdie |]. exact (Hdead Hgone).
Defined.

End DaemonSpec.

(** ** The registry: existing names are never inserted again *)

Module RegistrySpec.

Import Registry.

Section Forms.

Variable accepts : list (gmap string value) → gmap string value → bool.

Lemma find_name_exists name table :
  name_exists name table = true ↔ is_Some (List.find (has_name name) table).
Proof.
  unfold name_exists. induction table as [| row table IH]; simpl.
  - split; [discriminate | intros [? [=]]].
  - destruct (has_name name row); simpl; [| exact IH].
    split; eauto.
Qed.

Lemma find_name_absent name table :
  name_exists name table = false ↔ List.find (has_name name) table = None.
Proof.
  destruct (name_exists name table) eqn:H.
  - apply find_name_exists in H as [row ->]. split; discriminate.
  - split; [intros _ | done].
    destruct (List.find _ _) eqn:Hf; [| done].
    assert (name_exists name table = true) by (apply find_name_exists; eauto).
    congruence.
Qed.

(** **** register_sample *)

Lemma register_row_name name sample_data :
  register_row name sample_data !! "SampleName" = Some name.
Proof. reflexivity. Qed.

Lemma register_existing create_engine sample_data table name :
  sample_data !! "SampleName" = Some name →
  name_exists name table = true →
  ∃ shown, register_sample accepts create_engine sample_data table
           = (inr false, table, shown).
Proof.
  intros Hname Hex. apply find_name_exists in Hex as [row Hrow].
  unfold register_sample, connect_db. destruct create_engine as [e | []]; simpl.
  - eauto.
  - unfold transaction, register_body, mbind, DB_bind, lift, getitem, check_query.
    rewrite Hname. cbn. rewrite Hrow. cbn. eauto.
Qed.

Lemma register_inserts_only_new create_engine sample_data table :
  ∃ added, snd (fst (register_sample accepts create_engine sample_data table))
           = table ++ added
           ∧ all_new table added.
Proof.
  unfold register_sample, connect_db. destruct create_engine as [e | []]; simpl.
  - exists []; split; [now rewrite app_nil_r | exact I].
  - unfold transaction, register_body, mbind, DB_bind, lift, getitem, check_query.
    destruct (sample_data !! "SampleName") as [name |] eqn:Hname; cbn.
    2: { exists []; split; [now rewrite app_nil_r | exact I]. }
    destruct (List.find (has_name name) table) as [row |] eqn:Hfind; cbn.
    { exists []; split; [now rewrite app_nil_r | exact I]. }
    unfold insert_query. cbn. destruct (accepts table _) eqn:Hacc; cbn.
    + eexists [_]. split; [reflexivity |]. split; [| exact I].
      exists name. split; [apply register_row_name | now apply find_name_absent].
    + exists []; split; [now rewrite app_nil_r | exact I].
Qed.

(** **** bulk_upload *)

Section Frame.

Variable cell : Type.
Variable notna : cell → bool.
Variable py_str : cell → string.
Variable py_float py_int to_date : cell → Py.exn + value.

#[local] Abbreviation bulk_row := (bulk_row cell notna py_str py_float py_int to_date).
#[local] Abbreviation bulk_step := (bulk_step accepts cell notna py_str py_float py_int to_date).
#[local] Abbreviation bulk_loop := (bulk_loop accepts cell notna py_str py_float py_int to_date).
#[local] Abbreviation bulk_upload := (bulk_upload accepts cell notna py_str py_float py_int to_date).
#[local] Abbreviation name_of := (name_of cell py_str).

Lemma bulk_row_name name row params :
  bulk_row name row = inr params → params !! "SampleName" = Some (Text name).
Proof.
  unfold Registry.bulk_row, mbind, Py.exc_bind.
  repeat match goal with
         | |- context [match convert ?c ?n ?f ?r ?k with _ => _ end] =>
             destruct (convert c n f r k); [discriminate |]
         end.
  intros H.
  pose (name_in := λ x : Py.exn + gmap string value,
          match x with inr p => p !! "SampleName" | inl _ => None end).
  assert (Hname : name_in (inr params) = Some (Text name))
    by (rewrite <- H; vm_compute; reflexivity).
  exact Hname.
Qed.

(** A row whose name is stored is skipped and counted. *)
Lemma bulk_step_existing t row c name :
  name_of row = inr name → aborted c = false →
  name_exists (Text name) (rows c) = true →
  bulk_step t row c
  = (inr (MkTally (inserted t) (S (skipped t)) (errors t) (Some name)), c).
Proof.
  intros Hname Hok Hex. apply find_name_exists in Hex as [found Hfound].
  unfold Registry.bulk_step. rewrite Hname. unfold check_query.
  now rewrite Hok, Hfound.
Qed.

(** One turn adds at most one row, and only under a new name. *)
Lemma bulk_step_adds t row c :
  ∃ added, rows (snd (bulk_step t row c)) = rows c ++ added
           ∧ all_new (rows c) added.
Proof.
  assert (Hsame : ∃ added, rows c = rows c ++ added ∧ all_new (rows c) added)
    by (exists []; split; [now rewrite app_nil_r | exact I]).
  unfold Registry.bulk_step.
  destruct (name_of row) as [e | name]; [now destruct (sample_name t) |].
  unfold check_query. destruct (aborted c) eqn:Hab; [exact Hsame |].
  destruct (List.find _ (rows c)) eqn:Hfind; [exact Hsame |].
  destruct (bulk_row name row) as [e | params] eqn:Hrow; [exact Hsame |].
  unfold insert_query. rewrite Hab.
  destruct (accepts (rows c) params); [| exact Hsame].
  exists [params]. split; [reflexivity |]. split; [| exact I].
  exists (Text name). split; [eapply bulk_row_name, Hrow | now apply find_name_absent].
Qed.

Lemma all_new_app table added more :
  all_new table added → all_new (table ++ added) more →
  all_new table (added ++ more).
Proof.
  revert table. induction added as [| row added IH]; intros table; simpl.
  - now rewrite app_nil_r.
  - intros [Hrow Hadded] Hmore. split; [exact Hrow |].
    apply IH; [exact Hadded |]. now rewrite <- app_assoc.
Qed.

Lemma bulk_loop_adds df t c :
  ∃ added, rows (snd (bulk_loop t df c)) = rows c ++ added
           ∧ all_new (rows c) added.
Proof.
  revert t c. induction df as [| row df IH]; intros t c.
  - exists []. simpl. split; [now rewrite app_nil_r | exact I].
  - cbn [Registry.bulk_loop]. unfold mbind, DB_bind.
    destruct (bulk_step_adds t row c) as (a1 & H1 & Hn1).
    destruct (bulk_step t row c) as [[e | t'] c']; simpl in H1.
    + exists a1. now split.
    + destruct (IH t' c') as (a2 & H2 & Hn2).
      exists (a1 ++ a2). rewrite H2, H1, app_assoc. split; [reflexivity |].
      apply all_new_app; [exact Hn1 | now rewrite <- H1].
Qed.

Lemma bulk_upload_adds create_engine df table :
  ∃ added, snd (fst (bulk_upload create_engine df table)) = table ++ added
           ∧ all_new table added.
Proof.
  assert (Hsame : ∃ added, table = table ++ added ∧ all_new table added)
    by (exists []; split; [now rewrite app_nil_r | exact I]).
  unfold Registry.bulk_upload, connect_db.
  destruct create_engine as [e | []]; simpl; [exact Hsame |].
  unfold transaction.
  destruct (bulk_loop_adds df (MkTally 0 0 [] None) (MkConn table false))
    as (added & Hrows & Hnew).
  destruct (bulk_loop _ df _) as [[e | t] c]; simpl in *; [exact Hsame |].
  destruct (aborted c); [exact Hsame |]. eauto.
Qed.

(** When every row of the file names a stored sample, all are
    skipped and the table is left as it was. *)
Lemma bulk_loop_all_existing df t table :
  Forall (λ row, ∃ name, name_of row = inr name
                         ∧ name_exists (Text name) table = true) df →
  ∃ t', bulk_loop t df (MkConn table false) = (inr t', MkConn table false)
        ∧ inserted t' = inserted t
        ∧ skipped t' = (skipped t + length df)%nat
        ∧ errors t' = errors t.
Proof.
  intros Hall. revert t. induction Hall as [| row df (name & Hname & Hex) _ IH]; intros t.
  - exists t. simpl. repeat split. lia.
  - cbn [Registry.bulk_loop]. unfold mbind, DB_bind.
    rewrite (bulk_step_existing t row (MkConn table false) name Hname eq_refl Hex).
    destruct (IH (MkTally (inserted t) (S (skipped t)) (errors t) (Some name)))
      as (t' & -> & Hi & Hs & He).
    exists t'. simpl in *. repeat split; [done | lia | done].
Qed.

Lemma bulk_upload_all_existing df table :
  Forall (λ row, ∃ name, name_of row = inr name
                         ∧ name_exists (Text name) table = true) df →
  ∃ t shown, bulk_upload (inr ()) df table = (inr (Some t), table, shown)
             ∧ inserted t = 0%nat
             ∧ skipped t = length df
             ∧ errors t = [].
Proof.
  intros Hall.
  destruct (bulk_loop_all_existing df (MkTally 0 0 [] None) table Hall)
    as (t & Hloop & Hi & Hs & He).
  unfold Registry.bulk_upload, connect_db, transaction. cbn [negb fst snd].
  rewrite Hloop. cbn [aborted rows app]. do 2 eexists. split; [reflexivity |].
  rewrite Hi, Hs, He. simpl. auto.
Qed.

End Frame.

End Forms.



(** A row under a new name does get inserted, and a second row of the
    same file under that name is then skipped. *)
Example bulk_upload_inserts_once :
  let row : gmap string string := {[ "SampleName" := "JK_9150" ]} in
  let out := bulk_upload Samples.takes_all string Samples.cell_notna id
               Samples.cell_other Samples.cell_number Samples.cell_other
               (inr ()) [row; Samples.uploaded_row; row] Samples.stored in
  fst (fst out) = inr (Some (MkTally 1 2 [] (Some "JK_9150")))
  ∧ length (snd (fst out)) = 2%nat.
Proof. vm_compute. repeat split. Qed.

(** ** The registry beyond duplicate names *)

(** *** What [register_sample] returns *)

Lemma has_own_name name sample_data :
  name ≠ Null → has_name name (register_row name sample_data) = true.
Proof.
  intros Hname. unfold has_name. rewrite register_row_name.
  destruct name; [done | | |]; unfold sql_eq; now rewrite bool_decide_eq_true.
Qed.

Lemma name_exists_app name table more :
  name_exists name (table ++ more) = name_exists name table || name_exists name more.
Proof. unfold name_exists. apply existsb_app. Qed.

Lemma register_outcome accepts create_engine sample_data table :
  ∃ b table' shown,
    register_sample accepts create_engine sample_data table = (inr b, table', shown)
    ∧ (b = true →
       ∃ name, sample_data !! "SampleName" = Some name
               ∧ name_exists name table = false
               ∧ accepts table (register_row name sample_data) = true
               ∧ table' = table ++ [register_row name sample_data]
               ∧ ∃ text, last shown = Some (Success text))
    ∧ (b = false →
       table' = table
       ∧ ∃ text, last shown = Some (Warning text) ∨ last shown = Some (Error text)).
Proof.
  unfold register_sample, connect_db. destruct create_engine as [e | []]; simpl.
  { eexists false, _, _. split; [reflexivity |]. split; [discriminate |]. eauto. }
  unfold transaction, register_body, mbind, DB_bind, lift, getitem, check_query.
  destruct (sample_data !! "SampleName") as [name |] eqn:Hname; cbn.
  2: { eexists false, _, _. split; [reflexivity |]. split; [discriminate |]. eauto. }
  destruct (List.find (has_name name) table) as [row |] eqn:Hfind; cbn.
  { eexists false, _, _. split; [reflexivity |]. split; [discriminate |]. eauto. }
  unfold insert_query. cbn. destruct (accepts table _) eqn:Hacc; cbn.
  - eexists true, _, _. split; [reflexivity |]. split; [| discriminate].
    intros _. exists name. split; [reflexivity |].
    split; [now apply find_name_absent |]. split; [exact Hacc |]. split; [reflexivity |].
    eauto.
  - eexists false, _, _. split; [reflexivity |]. split; [discriminate |]. eauto.
Qed.


(** X13.  A registration that succeeded is not repeated: called again with
    the same data on the table it left, [register_sample] returns
    False and changes nothing. *)
Theorem second_registration_is_refused
        (accepts : list (gmap string value) → gmap string value → bool)
        (engine1 engine2 : Py.exn + unit) (sample_data : gmap string value)
        (table : list (gmap string value)) (name : value) :
  sample_data !! "SampleName" = Some name → name ≠ Null →
  fst (fst (register_sample accepts engine1 sample_data table)) = inr true →
  let table' := snd (fst (register_sample accepts engine1 sample_data table)) in
  ∃ shown, register_sample accepts engine2 sample_data table' = (inr false, table', shown).
Proof.
  intros Hname Hnull Htrue table'.
  destruct (register_outcome accepts engine1 sample_data table)
    as (b & t1 & shown & Hreg & Hyes & _).
  unfold table'. rewrite Hreg in Htrue |- *. simpl in Htrue |- *.
  injection Htrue as ->.
  destruct (Hyes eq_refl) as (name' & Hname' & _ & _ & -> & _).
  assert (name' = name) as -> by congruence.
  apply (register_existing accepts engine2 sample_data _ name Hname).
  rewrite name_exists_app. unfold name_exists at 2. cbn [existsb].
  rewrite has_own_name by exact Hnull. apply orb_true_r.
Qed.

Lemma second_registration_is_refused_witness :
  let table' := snd (fst (register_sample Samples.takes_all (inr ()) Samples.form_data [])) in
  Samples.form_data !! "SampleName" = Some (Text "JK_9149")
  ∧ fst (fst (register_sample Samples.takes_all (inr ()) Samples.form_data [])) = inr true
  ∧ ∃ shown, register_sample Samples.takes_all (inr ()) Samples.form_data table'
             = (inr false, table', shown).
Proof.
  assert (H1 : Samples.form_data !! "SampleName" = Some (Text "JK_9149"))
    by (vm_compute; reflexivity).
  assert (H2 : fst (fst (register_sample Samples.takes_all (inr ()) Samples.form_data []))
               = inr true) by (vm_compute; reflexivity).
  split; [exact H1 |]. split; [exact H2 |].
  exact (second_registration_is_refused Samples.takes_all (inr ()) (inr ())
           Samples.form_data [] (Text "JK_9149") H1 ltac:(discriminate) H2).
Defined.

(** *** The counters of [bulk_upload] *)

Lemma triple_eta {A B C} (o : A * B * C) : o = (fst (fst o), snd (fst o), snd o).
Proof. now destruct o as [[a b] c]. Qed.

Section Counters.

Variable accepts : list (gmap string value) → gmap string value → bool.
Variable cell : Type.
Variable notna : cell → bool.
Variable py_str : cell → string.
Variable py_float py_int to_date : cell → Py.exn + value.

#[local] Abbreviation bulk_row := (bulk_row cell notna py_str py_float py_int to_date).
#[local] Abbreviation bulk_step := (bulk_step accepts cell notna py_str py_float py_int to_date).
#[local] Abbreviation bulk_loop := (bulk_loop accepts cell notna py_str py_float py_int to_date).
#[local] Abbreviation bulk_upload := (bulk_upload accepts cell notna py_str py_float py_int to_date).
#[local] Abbreviation name_of := (name_of cell py_str).

Lemma bulk_step_counted t row c t' c' :
  bulk_step t row c = (inr t', c') → counted t c t' c' 1.
Proof.
  unfold Registry.bulk_step, counted.
  destruct (name_of row) as [e | name].
  { destruct (sample_name t); [| discriminate]. intros [= <- <-]. simpl.
    rewrite length_app. simpl. repeat split; first [lia | congruence | solve [auto]]. }
  unfold check_query. destruct (aborted c) eqn:Hab.
  { intros [= <- <-]. simpl. rewrite length_app. simpl. repeat split; first [lia | congruence | solve [auto]]. }
  destruct (List.find _ (rows c)).
  { intros [= <- <-]. simpl. repeat split; first [lia | congruence | solve [auto]]. }
  destruct (bulk_row name row) as [e | params].
  { intros [= <- <-]. simpl. rewrite length_app. simpl. repeat split; first [lia | congruence | solve [auto]]. }
  unfold insert_query. rewrite Hab. destruct (accepts (rows c) params).
  - intros [= <- <-]. simpl. rewrite length_app. simpl.
    repeat split; first [lia | discriminate].
  - intros [= <- <-]. simpl. rewrite length_app. simpl.
    repeat split; first [lia | intros _; right; lia].
Qed.

Lemma bulk_loop_counted df t c t' c' :
  bulk_loop t df c = (inr t', c') → counted t c t' c' (length df).
Proof.
  revert t c. induction df as [| row df IH]; intros t c.
  - intros [= <- <-]. unfold counted. repeat split; auto; lia.
  - cbn [Registry.bulk_loop]. unfold mbind, DB_bind.
    destruct (bulk_step t row c) as [[e | t1] c1] eqn:Hstep; [discriminate |].
    intros Hloop. apply bulk_step_counted in Hstep. apply IH in Hloop.
    unfold counted in *. cbn [length].
    destruct Hstep as (Hs1 & Hs2 & Hs3 & Hs4), Hloop as (Hl1 & Hl2 & Hl3 & Hl4).
    repeat split; try lia.
    intros Hab. destruct (Hl4 Hab) as [Hab1 | Hlt]; [| right; lia].
    destruct (Hs4 Hab1) as [Hab0 | Hlt]; [now left | right; lia].
Qed.

Lemma bulk_upload_returns df table t table' shown :
  bulk_upload (inr ()) df table = (inr (Some t), table', shown) →
  ∃ c', bulk_loop (MkTally 0 0 [] None) df (MkConn table false) = (inr t, c')
        ∧ table' = (if aborted c' then table else rows c').
Proof.
  unfold Registry.bulk_upload, connect_db, transaction. cbn [negb].
  destruct (bulk_loop _ df _) as [[e | t0] c'] eqn:Hloop; [discriminate |].
  intros [= <- <- _]. eauto.
Qed.

End Counters.

(** X14.  When [bulk_upload] returns, every row of the file has been
    counted exactly once: as inserted, as skipped, or by an entry in
    the error list. *)
Theorem bulk_upload_counts_every_row
        (accepts : list (gmap string value) → gmap string value → bool)
        (cell : Type) (notna : cell → bool) (py_str : cell → string)
        (py_float py_int to_date : cell → Py.exn + value)
        (df : list (gmap string cell)) (table table' : list (gmap string value))
        (t : tally) (shown : list notice) :
  bulk_upload accepts cell notna py_str py_float py_int to_date (inr ()) df table
  = (inr (Some t), table', shown) →
  (inserted t + skipped t + length (errors t) = length df)%nat.
Proof.
  intros Hup.
  destruct (bulk_upload_returns _ _ _ _ _ _ _ _ _ _ _ _ Hup) as (c' & Hloop & _).
  destruct (bulk_loop_counted _ _ _ _ _ _ _ _ _ _ _ _ Hloop) as (Hcount & _).
  simpl in Hcount. lia.
Qed.

Lemma bulk_upload_counts_every_row_witness :
  let row : gmap string string := {[ "SampleName" := "JK_9150" ]} in
  let out := bulk_upload Samples.takes_all string Samples.cell_notna id Samples.cell_other
               Samples.cell_number Samples.cell_other (inr ())
               [row; Samples.uploaded_row; row] Samples.stored in
  let t := MkTally 1 2 [] (Some "JK_9150") in
  fst (fst out) = inr (Some t)
  ∧ (inserted t + skipped t + length (errors t) = 3)%nat.
Proof.
  intros row out t.
  assert (Ht : fst (fst out) = inr (Some t)) by (vm_compute; reflexivity).
  pose proof (triple_eta out) as H. rewrite Ht in H.
  split; [exact Ht |].
  exact (bulk_upload_counts_every_row _ _ _ _ _ _ _ _ _ _ _ _ H).
Defined.

(** X15.  The table grows by at most [inserted] rows, and by exactly that
    many when the error list is empty: the success message then
    counts what was committed. *)
Theorem bulk_upload_commits_what_it_counts
        (accepts : list (gmap string value) → gmap string value → bool)
        (cell : Type) (notna : cell → bool) (py_str : cell → string)
        (py_float py_int to_date : cell → Py.exn + value)
        (df : list (gmap string cell)) (table table' : list (gmap string value))
        (t : tally) (shown : list notice) :
  bulk_upload accepts cell notna py_str py_float py_int to_date (inr ()) df table
  = (inr (Some t), table', shown) →
  (length table' ≤ length table + inserted t)%nat
  ∧ (errors t = [] → length table' = (length table + inserted t)%nat
                     ∧ (inserted t + skipped t = length df)%nat).
Proof.
  intros Hup.
  destruct (bulk_upload_returns _ _ _ _ _ _ _ _ _ _ _ _ Hup) as (c' & Hloop & ->).
  destruct (bulk_loop_counted _ _ _ _ _ _ _ _ _ _ _ _ Hloop) as (Hc & Hrows & _ & Hab).
  simpl in Hc, Hrows, Hab. split.
  - destruct (aborted c'); lia.
  - intros Herr. rewrite Herr in Hc, Hab. simpl in Hc, Hab.
    destruct (aborted c'); [| lia].
    destruct (Hab eq_refl) as [Hf | Hlt]; [discriminate | lia].
Qed.

Lemma bulk_upload_commits_what_it_counts_witness :
  let row : gmap string string := {[ "SampleName" := "JK_9150" ]} in
  let out := bulk_upload Samples.takes_all string Samples.cell_notna id Samples.cell_other
               Samples.cell_number Samples.cell_other (inr ())
               [row; Samples.uploaded_row; row] Samples.stored in
  let t := MkTally 1 2 [] (Some "JK_9150") in
  fst (fst out) = inr (Some t)
  ∧ errors t = []
  ∧ length (snd (fst out)) = (length Samples.stored + inserted t)%nat.
Proof.
  intros row out t.
  assert (Ht : fst (fst out) = inr (Some t)) by (vm_compute; reflexivity).
  pose proof (triple_eta out) as H. rewrite Ht in H.
  split; [exact Ht |]. split; [reflexivity |].
  exact (proj1 (proj2 (bulk_upload_commits_what_it_counts _ _ _ _ _ _ _ _ _ _ _ _ H)
                  eq_refl)).
Defined.

(** X16.  A file whose first row has no [SampleName] makes the [try] body
    fail before [sample_name] is bound; the handler then fails on
    that name, and [bulk_upload] ends with [UnboundLocalError]:
    nothing is committed and no message is shown. *)
Theorem upload_without_name_column_raises
        (accepts : list (gmap string value) → gmap string value → bool)
        (cell : Type) (notna : cell → bool) (py_str : cell → string)
        (py_float py_int to_date : cell → Py.exn + value)
        (row : gmap string cell) (df : list (gmap string cell))
        (table : list (gmap string value)) :
  row !! "SampleName" = None →
  bulk_upload accepts cell notna py_str py_float py_int to_date (inr ()) (row :: df) table
  = (inl (Py.UnboundLocalError "sample_name"), table, []).
Proof.
  intros Hrow. unfold bulk_upload, connect_db, transaction. cbn [negb bulk_loop].
  unfold mbind at 1, DB_bind at 1. unfold bulk_step, name_of, getitem.
  rewrite Hrow. reflexivity.
Qed.

Lemma upload_without_name_column_raises_witness :
  let row : gmap string string := {[ "Tissue" := "Cervix" ]} in
  row !! "SampleName" = None
  ∧ bulk_upload Samples.takes_all string Samples.cell_notna id Samples.cell_other
      Samples.cell_number Samples.cell_other (inr ()) [row] Samples.stored
    = (inl (Py.UnboundLocalError "sample_name"), Samples.stored, []).
Proof.
  assert (Hrow : ({[ "Tissue" := "Cervix" ]} : gmap string string) !! "SampleName" = None)
    by (vm_compute; reflexivity).
  split; [exact Hrow |].
  exact (upload_without_name_column_raises Samples.takes_all string Samples.cell_notna id
           Samples.cell_other Samples.cell_number Samples.cell_other _ [] Samples.stored
           Hrow).
Defined.

(** *** The query of the page "View Samples" *)

(** X17.  What is typed into the filters never becomes part of the SQL
    text: the text depends only on which filters are filled in. *)
Theorem view_query_text_ignores_the_input (a b c d e a' b' c' d' e' : string) :
  nonempty a = nonempty a' → nonempty b = nonempty b' → nonempty c = nonempty c' →
  nonempty d = nonempty d' → nonempty e = nonempty e' →
  fst (view_query a b c d e) = fst (view_query a' b' c' d' e').
Proof.
  intros Ha Hb Hc Hd He. unfold view_query. rewrite <- Ha, <- Hb, <- Hc, <- Hd, <- He.
  destruct (nonempty a), (nonempty b), (nonempty c), (nonempty d), (nonempty e);
    reflexivity.
Qed.

Lemma view_query_text_ignores_the_input_witness :
  nonempty "JK" = nonempty "x'; DROP TABLE scRNAseq_Samples; --"
  ∧ fst (view_query "x'; DROP TABLE scRNAseq_Samples; --" "" "" "Cervix" "")
    = fst (view_query "JK" "" "" "Blood" "").
Proof.
  split; [reflexivity |].
  exact (view_query_text_ignores_the_input
           "x'; DROP TABLE scRNAseq_Samples; --" "" "" "Cervix" ""
           "JK" "" "" "Blood" "" eq_refl eq_refl eq_refl eq_refl eq_refl).
Defined.

(** X18.  The query has one condition per filter that is filled in, in the
    order of the page, between the SELECT and the ORDER BY ... LIMIT
    100; the parameters bind exactly the placeholders of these
    conditions, each to its filter text between two [%]. *)
Theorem view_query_binds_its_placeholders (a b c d e : string) :
  let filled := filled_filters a b c d e in
  view_query a b c d e
  = (NL +:+ "        SELECT * FROM scRNAseq_Samples WHERE 1=1" +:+ NL +:+ "    "
       +:+ conditions filled +:+ " ORDER BY SampleDate DESC, SampleName LIMIT 100",
     list_to_map ((λ p, (fst p, "%" +:+ snd p +:+ "%")) <$> filled)).
Proof.
  unfold view_query, filled_filters.
  destruct a as [| a0 a], b as [| b0 b], c as [| c0 c], d as [| d0 d], e as [| e0 e];
    reflexivity.
Qed.

(** *** The columns of the statements, the form and the template *)

Lemma dom_keys (l : list (string * value)) :
  dom (list_to_map l : gmap string value) = (list_to_set (fst <$> l) : gset string).
Proof. apply dom_list_to_map_L. Qed.

(** X19.  The parameters that [register_sample] and [bulk_upload] hand to
    their INSERT bind exactly the columns of the statement; the form
    fills exactly these keys, and the template has exactly these
    columns, in the order of the statement, with three values each. *)
Theorem insert_columns_agree :
  (∀ name sample_data,
     dom (register_row name sample_data) = (list_to_set insert_columns : gset string))
  ∧ (∀ cell notna py_str py_float py_int to_date name row params,
       bulk_row cell notna py_str py_float py_int to_date name row = inr params →
       dom params = (list_to_set insert_columns : gset string))
  ∧ (∀ float nonzero float_value f,
       dom (Form.sample_data float nonzero float_value f)
       = (list_to_set insert_columns : gset string))
  ∧ fst <$> template_data = insert_columns
  ∧ Forall (λ column, length (snd column) = 3%nat) template_data.
Proof.
  split; [| split; [| split; [| split]]].
  - intros name sample_data. unfold register_row. now rewrite dom_keys.
  - intros cell notna py_str py_float py_int to_date name row params.
    unfold bulk_row, mbind, Py.exc_bind.
    repeat match goal with
           | |- context [match convert ?c ?n ?f ?r ?k with _ => _ end] =>
               destruct (convert c n f r k); [discriminate |]
           end.
    intros H.
    pose (keys := λ x : Py.exn + gmap string value,
            match x with inr p => dom p | inl _ => (∅ : gset string) end).
    change (keys (inr params) = list_to_set insert_columns).
    rewrite <- H. unfold keys. now rewrite dom_keys.
  - intros float nonzero float_value f. unfold Form.sample_data. now rewrite dom_keys.
  - reflexivity.
  - unfold template_data. repeat constructor.
Qed.

(** *** The form *)

Section FormPage.

Variable accepts : list (gmap string value) → gmap string value → bool.
Variable float : Type.
Variable nonzero : float → bool.
Variable float_value : float → value.

#[local] Abbreviation sample_data := (Form.sample_data float nonzero float_value).
#[local] Abbreviation submitted := (Form.submitted float nonzero float_value accepts).

Lemma sample_data_name f :
  sample_data f !! "SampleName" = Some (Text (Py.strip (Form.sample_name float f))).
Proof. reflexivity. Qed.

(** What a submit with a name does to the table. *)
Lemma submitted_outcome create_engine f table :
  nonempty (Form.sample_name float f) = true →
  ∃ (b : bool) shown,
    submitted create_engine f table
    = (inr (Some b),
       if b then table ++ [register_row (Text (Py.strip (Form.sample_name float f)))
                             (sample_data f)]
       else table,
       shown)
    ∧ (b = true →
       name_exists (Text (Py.strip (Form.sample_name float f))) table = false).
Proof.
  intros Hname. unfold Form.submitted. rewrite Hname. cbn [negb].
  destruct (register_outcome accepts create_engine (sample_data f) table)
    as (b & table' & shown & -> & Hyes & Hno).
  exists b, shown. destruct b.
  - destruct (Hyes eq_refl) as (name & Hn & Hnew & _ & -> & _).
    rewrite sample_data_name in Hn. injection Hn as <-. split; [reflexivity | done].
  - destruct (Hno eq_refl) as [-> _]. split; [reflexivity | discriminate].
Qed.

End FormPage.

(** X20.  A name made of white space only passes the test [if not
    sample_name] and is stripped to the empty string afterwards: when
    no row is stored under the empty name and the database takes the
    row, the sample is registered under the name [''] . *)
Theorem blank_name_is_registered_as_empty
        (accepts : list (gmap string value) → gmap string value → bool)
        (float : Type) (nonzero : float → bool) (float_value : float → value)
        (f : Form.form float) (table : list (gmap string value)) :
  nonempty (Form.sample_name float f) = true →
  Py.strip (Form.sample_name float f) = "" →
  name_exists (Text "") table = false →
  accepts table (register_row (Text "") (Form.sample_data float nonzero float_value f))
  = true →
  ∃ shown,
    Form.submitted float nonzero float_value accepts (inr ()) f table
    = (inr (Some true),
       table ++ [register_row (Text "") (Form.sample_data float nonzero float_value f)],
       shown).
Proof.
  intros Hname Hblank Hnew Hacc. unfold Form.submitted. rewrite Hname. cbn [negb].
  unfold register_sample, connect_db. cbn [negb].
  unfold transaction, register_body, mbind, DB_bind, lift, getitem, check_query.
  rewrite sample_data_name, Hblank. cbn [aborted rows].
  apply find_name_absent in Hnew. rewrite Hnew.
  unfold insert_query. cbn [aborted rows]. rewrite Hacc. cbn [aborted rows].
  eexists. reflexivity.
Qed.

Lemma blank_name_is_registered_as_empty_witness :
  let f := Samples.form_named "  " in
  nonempty (Form.sample_name string f) = true
  ∧ Py.strip (Form.sample_name string f) = ""
  ∧ ∃ shown,
      Form.submitted string Samples.float_nonzero Other Samples.takes_all (inr ()) f []
      = (inr (Some true),
         [register_row (Text "") (Form.sample_data string Samples.float_nonzero Other f)],
         shown).
Proof.
  split; [reflexivity |]. split; [reflexivity |].
  exact (blank_name_is_registered_as_empty Samples.takes_all string Samples.float_nonzero
           Other (Samples.form_named "  ") [] eq_refl eq_refl eq_refl eq_refl).
Defined.

(** *** Names are stored stripped *)

Section Stripped.

Variable accepts : list (gmap string value) → gmap string value → bool.
Variable cell : Type.
Variable notna : cell → bool.
Variable py_str : cell → string.
Variable py_float py_int to_date : cell → Py.exn + value.

#[local] Abbreviation bulk_row := (bulk_row cell notna py_str py_float py_int to_date).
#[local] Abbreviation bulk_step := (bulk_step accepts cell notna py_str py_float py_int to_date).
#[local] Abbreviation bulk_loop := (bulk_loop accepts cell notna py_str py_float py_int to_date).
#[local] Abbreviation bulk_upload := (bulk_upload accepts cell notna py_str py_float py_int to_date).
#[local] Abbreviation name_of := (name_of cell py_str).

Lemma name_of_stripped row name : name_of row = inr name → Py.strip name = name.
Proof.
  unfold Registry.name_of, getitem, mbind, Py.exc_bind.
  destruct (row !! "SampleName"); [| discriminate].
  intros [= <-]. apply PyFacts.strip_idempotent.
Qed.

Lemma bulk_step_stripped t row c :
  names_stripped (rows c) → names_stripped (rows (snd (bulk_step t row c))).
Proof.
  intros Hrows. unfold Registry.bulk_step.
  destruct (name_of row) as [e | name] eqn:Hname; [now destruct (sample_name t) |].
  unfold check_query. destruct (aborted c) eqn:Hab; [exact Hrows |].
  destruct (List.find _ (rows c)); [exact Hrows |].
  destruct (bulk_row name row) as [e | params] eqn:Hrow; [exact Hrows |].
  unfold insert_query. rewrite Hab.
  destruct (accepts (rows c) params); [| exact Hrows].
  cbn [snd rows]. apply Forall_app. split; [exact Hrows |].
  constructor; [| constructor]. exists name.
  split; [eapply bulk_row_name, Hrow | eapply name_of_stripped, Hname].
Qed.

Lemma bulk_loop_stripped df t c :
  names_stripped (rows c) → names_stripped (rows (snd (bulk_loop t df c))).
Proof.
  revert t c. induction df as [| row df IH]; intros t c Hrows; [exact Hrows |].
  cbn [Registry.bulk_loop]. unfold mbind, DB_bind.
  pose proof (bulk_step_stripped t row c Hrows) as Hstep.
  destruct (bulk_step t row c) as [[e | t'] c']; [exact Hstep | now apply IH].
Qed.

Lemma bulk_upload_stripped create_engine df table :
  names_stripped table →
  names_stripped (snd (fst (bulk_upload create_engine df table))).
Proof.
  intros Htable. unfold Registry.bulk_upload, connect_db.
  destruct create_engine as [e | []]; cbn [negb fst snd]; [exact Htable |].
  unfold transaction.
  pose proof (bulk_loop_stripped df (MkTally 0 0 [] None) (MkConn table false) Htable)
    as Hloop.
  destruct (bulk_loop _ df _) as [[e | t] c]; cbn [fst snd] in *; [exact Htable |].
  now destruct (aborted c).
Qed.

End Stripped.

(** X21.  Both ways into the table strip the name first: if every stored
    name is a text that [strip()] leaves as it is, this is still so
    after a submit of the form and after a bulk upload, whatever they
    are given and however they end. *)
Theorem stored_names_stay_stripped
        (accepts : list (gmap string value) → gmap string value → bool)
        (table : list (gmap string value)) :
  names_stripped table →
  (∀ float nonzero float_value create_engine f,
     names_stripped
       (snd (fst (Form.submitted float nonzero float_value accepts create_engine f table))))
  ∧ (∀ cell notna py_str py_float py_int to_date create_engine df,
       names_stripped
         (snd (fst (bulk_upload accepts cell notna py_str py_float py_int to_date
                      create_engine df table)))).
Proof.
  intros Htable. split.
  - intros float nonzero float_value create_engine f.
    destruct (nonempty (Form.sample_name float f)) eqn:Hname.
    + destruct (submitted_outcome accepts float nonzero float_value create_engine f table
                  Hname) as (b & shown & -> & _).
      cbn [fst snd]. destruct b; [| exact Htable].
      apply Forall_app. split; [exact Htable |]. constructor; [| constructor].
      eexists. split; [apply register_row_name | apply PyFacts.strip_idempotent].
    + unfold Form.submitted. rewrite Hname. exact Htable.
  - intros. now apply bulk_upload_stripped.
Qed.

Lemma stored_names_stay_stripped_witness :
  names_stripped Samples.stored
  ∧ names_stripped
      (snd (fst (Form.submitted string Samples.float_nonzero Other Samples.takes_all
                   (inr ()) (Samples.form_named " JK_9150 ") Samples.stored))).
Proof.
  assert (H : names_stripped Samples.stored).
  { constructor; [| constructor]. exists "JK_9149". split; reflexivity. }
  split; [exact H |].
  exact (proj1 (stored_names_stay_stripped Samples.takes_all Samples.stored H)
           string Samples.float_nonzero Other (inr ()) (Samples.form_named " JK_9150 ")).
Defined.

(** X22.  A sample registered through the form is skipped by a later
    upload of a row with that name, whatever white space surrounds the
    name on either side: the upload counts the row as skipped and
    leaves the table as the form left it. *)
Theorem registered_name_is_skipped_by_upload
        (accepts : list (gmap string value) → gmap string value → bool)
        (float : Type) (nonzero : float → bool) (float_value : float → value)
        (cell : Type) (notna : cell → bool) (py_str : cell → string)
        (py_float py_int to_date : cell → Py.exn + value)
        (create_engine : Py.exn + unit) (f : Form.form float)
        (table : list (gmap string value)) (row : gmap string cell) :
  let out := Form.submitted float nonzero float_value accepts create_engine f table in
  fst (fst out) = inr (Some true) →
  name_of cell py_str row = inr (Py.strip (Form.sample_name float f)) →
  ∃ shown,
    bulk_upload accepts cell notna py_str py_float py_int to_date (inr ()) [row]
      (snd (fst out))
    = (inr (Some (MkTally 0 1 [] (Some (Py.strip (Form.sample_name float f))))),
       snd (fst out), shown).
Proof.
  intros out Htrue Hrow.
  assert (Hname : nonempty (Form.sample_name float f) = true).
  { destruct (nonempty (Form.sample_name float f)) eqn:Hn; [reflexivity |].
    unfold out, Form.submitted in Htrue. rewrite Hn in Htrue. discriminate. }
  destruct (submitted_outcome accepts float nonzero float_value create_engine f table Hname)
    as (b & shown & Hout & _).
  unfold out in *. rewrite Hout in Htrue |- *. cbn [fst snd] in Htrue |- *.
  injection Htrue as ->.
  set (name := Py.strip (Form.sample_name float f)) in *.
  set (table' := table ++ [register_row (Text name) _]).
  assert (Hex : name_exists (Text name) table' = true).
  { unfold table'. rewrite name_exists_app. unfold name_exists at 2. cbn [existsb].
    rewrite has_own_name by discriminate. apply orb_true_r. }
  unfold bulk_upload, connect_db, transaction. cbn [negb bulk_loop].
  unfold mbind at 1, DB_bind at 1.
  rewrite (bulk_step_existing accepts cell notna py_str py_float py_int to_date
             _ row (MkConn table' false) name Hrow eq_refl Hex).
  cbn [mret DB_ret aborted rows inserted skipped]. eexists. reflexivity.
Qed.

Lemma registered_name_is_skipped_by_upload_witness :
  let out := Form.submitted string Samples.float_nonzero Other Samples.takes_all (inr ())
               (Samples.form_named "JK_9150 ") Samples.stored in
  let row : gmap string string := {[ "SampleName" := "  JK_9150" ]} in
  fst (fst out) = inr (Some true)
  ∧ name_of string id row = inr "JK_9150"
  ∧ ∃ shown,
      bulk_upload Samples.takes_all string Samples.cell_notna id Samples.cell_other
        Samples.cell_number Samples.cell_other (inr ()) [row] (snd (fst out))
      = (inr (Some (MkTally 0 1 [] (Some "JK_9150"))), snd (fst out), shown).
Proof.
  intros out row.
  assert (H1 : fst (fst out) = inr (Some true)) by (vm_compute; reflexivity).
  assert (H2 : name_of string id row = inr "JK_9150") by (vm_compute; reflexivity).
  split; [exact H1 |]. split; [exact H2 |].
  exact (registered_name_is_skipped_by_upload Samples.takes_all string
           Samples.float_nonzero Other string Samples.cell_notna id Samples.cell_other
           Samples.cell_number Samples.cell_other (inr ()) (Samples.form_named "JK_9150 ")
           Samples.stored row H1 H2).
Defined.

End RegistrySpec.
